(** * Notes: a shallow embedding of the note-taking backend

    The development follows the layout of [backend/notes]:
    - [models.py]: the four tables and the [save] overrides that draw slugs;
    - [serializers.py]: the validation hooks and the [create] / [update]
      methods that read and write the tables;
    - [views.py]: the request handlers that call [is_valid] and then save.

    The database is a record of tables, each a list of rows in insertion
    order, threaded explicitly through every operation.  Python exceptions
    are the [Raise] branch of [Result].  The clock and [uuid.uuid4] are
    inputs, gathered in [Env].  A Python [str] is held as its UTF-8
    encoding. *)

From Stdlib Require Import Ascii String DecimalString.
From stdpp Require Import base option list strings gmap.

Local Open Scope string_scope.
Local Open Scope list_scope.

(** ** Exceptions and results *)

(** The [code] of a REST framework [ErrorDetail]; [detail] carries the text of
    an error raised by the repository's own code. *)
Inductive ErrorDetail :=
| required
| blank
| invalid
| null_characters_not_allowed
| not_a_list
| not_found
| detail (message : string).

Inductive Exception :=
| ValidationError (errors : list ErrorDetail)
| DoesNotExist (model : string)
| MultipleObjectsReturned (model : string)
| IntegrityError (column : string)
| ValueError (message : string)
| Http404.

Inductive Result (A : Type) :=
| Ok (a : A)
| Raise (e : Exception).
Arguments Ok {A} a.
Arguments Raise {A} e.

Definition bind {A B} (r : Result A) (k : A -> Result B) : Result B :=
  match r with
  | Ok a => k a
  | Raise e => Raise e
  end.

Notation "'let*' x := r 'in' k" := (bind r (fun x => k))
  (at level 10, x pattern, r at level 100, k at level 200).

(** ** The environment of one request *)

Record datetime := mkDatetime {
  year : nat; month : nat; day : nat; hour : nat; minute : nat
}.

Record Env := mkEnv {
  now : datetime;        (* timezone.now() *)
  uuid4_hex : string     (* uuid.uuid4().hex *)
}.

Definition two_digits (n : nat) : string :=
  let s := NilZero.string_of_uint (Nat.to_uint n) in
  if decide (n < 10) then "0" +:+ s else s.

(** [strftime('%d-%m-%Y at %I:%M %p')] *)
Definition strftime (t : datetime) : string :=
  let h12 := if decide (hour t `mod` 12 = 0) then 12 else hour t `mod` 12 in
  two_digits (day t) +:+ "-" +:+ two_digits (month t) +:+ "-" +:+
  NilZero.string_of_uint (Nat.to_uint (year t)) +:+ " at " +:+
  two_digits h12 +:+ ":" +:+ two_digits (minute t) +:+ " " +:+
  (if decide (hour t < 12) then "AM" else "PM").

(** ** models.py *)

(** [unique=True]: no row other than the one being written (the rows kept
    by [others]) holds the value. *)
Definition unique_violation {A} (col : A -> string) (v : string)
    (others : list A) : bool :=
  existsb (fun r => String.eqb (col r) v) others.

Module NotesUser.

Record t := mk {
  userslug : string;      (* primary key *)
  username : string;
  email : string;
  password : string;
  first_name : string;
  last_name : string
}.

Definition set_userslug (s : string) (u : t) : t :=
  mk s (username u) (email u) (password u) (first_name u) (last_name u).

Definition generate_random_slug (env : Env) : string := uuid4_hex env.

(** [save]: draw a slug when there is none, then [super().save()]: the
    row with this primary key is updated when there is one, a new row is
    inserted otherwise; [email] and [username] are unique. *)
Definition save (env : Env) (self : t) (rows : list t) : Result (t * list t) :=
  let self :=
    if String.eqb (userslug self) ""
    then set_userslug (String.substring 0 10 (generate_random_slug env)) self
    else self in
  let others := filter (fun r => userslug r ≠ userslug self) rows in
  if unique_violation email (email self) others then Raise (IntegrityError "email")
  else if unique_violation username (username self) others then Raise (IntegrityError "username")
  else if existsb (fun r => String.eqb (userslug r) (userslug self)) rows
  then Ok (self, (fun r => if String.eqb (userslug r) (userslug self) then self else r) <$> rows)
  else Ok (self, rows ++ [self]).

(** [__str__] *)
Definition str (self : t) : string := email self.

End NotesUser.

Module Note.

Record t := mk {
  pk : nat;                          (* the automatic [id] *)
  slug : string;
  created_by_user : string;          (* a [NotesUser] primary key *)
  last_modified_by_user : string;    (* a [NotesUser] primary key *)
  content : string;
  created_at : datetime
}.

Definition set_slug (s : string) (n : t) : t :=
  mk (pk n) s (created_by_user n) (last_modified_by_user n) (content n) (created_at n).
Definition set_content (c : string) (n : t) : t :=
  mk (pk n) (slug n) (created_by_user n) (last_modified_by_user n) c (created_at n).
Definition set_last_modified_by_user (u : string) (n : t) : t :=
  mk (pk n) (slug n) (created_by_user n) u (content n) (created_at n).
Definition set_created_at (d : datetime) (n : t) : t :=
  mk (pk n) (slug n) (created_by_user n) (last_modified_by_user n) (content n) d.

Definition generate_random_slug (env : Env) : string := uuid4_hex env.

(** [save]: draw a slug when there is none, then [super().save()]: an
    UPDATE of the row with this primary key when there is one, an INSERT
    otherwise ([auto_now_add] stamps [created_at] on insertion only);
    [slug] is unique. *)
Definition save (env : Env) (self : t) (rows : list t) : Result (t * list t) :=
  let self :=
    if String.eqb (slug self) ""
    then set_slug (String.substring 0 9 (generate_random_slug env)) self
    else self in
  if existsb (fun r => Nat.eqb (pk r) (pk self)) rows
  then
    if unique_violation slug (slug self) (filter (fun r => pk r ≠ pk self) rows)
    then Raise (IntegrityError "slug")
    else Ok (self, (fun r => if Nat.eqb (pk r) (pk self) then self else r) <$> rows)
  else
    let self := set_created_at (now env) self in
    if unique_violation slug (slug self) rows
    then Raise (IntegrityError "slug")
    else Ok (self, rows ++ [self]).

(** The next value of the [id] sequence. *)
Definition next_pk (rows : list t) : nat := S (foldr Nat.max 0 (pk <$> rows)).

(** [Note.objects.create(created_by_user=, content=, last_modified_by_user=)] *)
Definition objects_create (env : Env) (created_by content last_modified_by : string)
    (rows : list t) : Result (t * list t) :=
  save env (mk (next_pk rows) "" created_by last_modified_by content (now env)) rows.

(** [__str__] *)
Definition str (self : t) : string := content self.

End Note.

Module NoteHistory.

Record t := mk {
  note : nat;                  (* a [Note] primary key *)
  original_content : string;
  updated_content : string;
  updated_by_user : string;    (* a [NotesUser] primary key *)
  timestamp : datetime
}.

(** [NoteHistory.objects.create(...)]: rows are only ever appended, so the
    table is in insertion order. *)
Definition objects_create (env : Env) (note : Note.t) (original updated : string)
    (updated_by : NotesUser.t) (rows : list t) : t * list t :=
  let h := mk (Note.pk note) original updated (NotesUser.userslug updated_by) (now env) in
  (h, rows ++ [h]).

Definition formatted_timestamp (self : t) : string := strftime (timestamp self).

End NoteHistory.

Module SharedNote.

Record t := mk {
  pk : nat;                     (* the automatic [id] *)
  note : nat;                   (* a [Note] primary key *)
  shared_by : string;           (* a [NotesUser] primary key *)
  shared_with : gset string;    (* the many-to-many relation: [NotesUser] keys *)
  shared_at : datetime
}.

Definition next_pk (rows : list t) : nat := S (foldr Nat.max 0 (pk <$> rows)).

(** [SharedNote.objects.create(note=, shared_by=)] *)
Definition objects_create (env : Env) (n : Note.t) (by_user : NotesUser.t)
    (rows : list t) : t * list t :=
  let g := mk (next_pk rows) (Note.pk n) (NotesUser.userslug by_user) ∅ (now env) in
  (g, rows ++ [g]).

(** [self.shared_with.add(user)] *)
Definition shared_with_add (self : t) (user : NotesUser.t) (rows : list t) : list t :=
  (fun r =>
     if Nat.eqb (pk r) (pk self)
     then mk (pk r) (note r) (shared_by r)
             ({[ NotesUser.userslug user ]} ∪ shared_with r) (shared_at r)
     else r) <$> rows.

(** [self.save()] on a stored grant: the columns [note], [shared_by] and
    [shared_at] are written back; the relation is not a column. *)
Definition save (self : t) (rows : list t) : list t :=
  (fun r =>
     if Nat.eqb (pk r) (pk self)
     then mk (pk r) (note self) (shared_by self) (shared_with r) (shared_at self)
     else r) <$> rows.

(** The grant as the table holds it. *)
Definition stored (self : t) (rows : list t) : t :=
  default self (find (fun r => Nat.eqb (pk r) (pk self)) rows).

End SharedNote.

#[global] Instance datetime_eq_dec : EqDecision datetime.
Proof. solve_decision. Defined.
#[global] Instance NotesUser_eq_dec : EqDecision NotesUser.t.
Proof. solve_decision. Defined.
#[global] Instance Note_eq_dec : EqDecision Note.t.
Proof. solve_decision. Defined.
#[global] Instance NoteHistory_eq_dec : EqDecision NoteHistory.t.
Proof. solve_decision. Defined.
#[global] Instance SharedNote_eq_dec : EqDecision SharedNote.t.
Proof. solve_decision. Defined.

(** The database. *)
Record DB := mkDB {
  users : list NotesUser.t;
  notes : list Note.t;
  history : list NoteHistory.t;
  shared : list SharedNote.t
}.

Definition set_users (us : list NotesUser.t) (db : DB) : DB :=
  mkDB us (notes db) (history db) (shared db).
Definition set_notes (ns : list Note.t) (db : DB) : DB :=
  mkDB (users db) ns (history db) (shared db).
Definition set_history (hs : list NoteHistory.t) (db : DB) : DB :=
  mkDB (users db) (notes db) hs (shared db).
Definition set_shared (gs : list SharedNote.t) (db : DB) : DB :=
  mkDB (users db) (notes db) (history db) gs.

(** *** Managers: the queries the serializers and views run *)

(** [Model.objects.get(...)] on the rows a filter selected. *)
Definition get {A} (model : string) (selected : list A) : Result A :=
  match selected with
  | [] => Raise (DoesNotExist model)
  | [r] => Ok r
  | _ => Raise (MultipleObjectsReturned model)
  end.

(** [queryset.exists()] and [queryset.first()] *)
Definition exists_ {A} (selected : list A) : bool :=
  match selected with [] => false | _ => true end.
Definition first {A} (selected : list A) : option A := head selected.

Definition NotesUser_filter_userslug (db : DB) (v : string) : list NotesUser.t :=
  List.filter (fun u => String.eqb (NotesUser.userslug u) v) (users db).
Definition NotesUser_filter_email (db : DB) (v : string) : list NotesUser.t :=
  List.filter (fun u => String.eqb (NotesUser.email u) v) (users db).
Definition Note_filter_slug (db : DB) (v : string) : list Note.t :=
  List.filter (fun n => String.eqb (Note.slug n) v) (notes db).

(** ** Requests and responses *)

(** The values of [request.data]: a string, or a list of strings. *)
Inductive JSON :=
| JString (s : string)
| JList (l : list string).

(** [serializer.errors]: the error details of each rejected field. *)
Definition Errors := list (string * list ErrorDetail).

Inductive Validated (A : Type) :=
| Valid (validated_data : A)
| Invalid (errors : Errors).
Arguments Valid {A} validated_data.
Arguments Invalid {A} errors.

Definition field_error {A} (name : string) (r : Result A) : Errors :=
  match r with
  | Raise (ValidationError errs) => [(name, errs)]
  | _ => []
  end.

(** What the caller receives: the [Response] a view builds (with the
    message and either the data or the serializer's errors), the response
    the framework's exception handler builds, or a server error when the
    exception is none the handler knows. *)
Inductive HttpResponse (A : Type) :=
| Response (status : nat) (message : string) (data : A)
| ErrorResponse (status : nat) (message : string) (errors : Errors)
| ExceptionResponse (status : nat) (errors : list ErrorDetail)
| ServerError (e : Exception).
Arguments Response {A} status message data.
Arguments ErrorResponse {A} status message errors.
Arguments ExceptionResponse {A} status errors.
Arguments ServerError {A} e.

(** [APIView.handle_exception]: API exceptions and [Http404] become
    responses, anything else is raised again. *)
Definition handle_exception {A} (e : Exception) : HttpResponse A :=
  match e with
  | ValidationError errs => ExceptionResponse 400 errs
  | Http404 => ExceptionResponse 404 [not_found]
  | _ => ServerError e
  end.

(** [APIView.dispatch] around a handler.  No handler of this application
    raises after it has written, so a raised exception leaves the database
    as the handler found it. *)
Definition dispatch {A} (db : DB) (r : Result (HttpResponse A * DB)) : HttpResponse A * DB :=
  match r with
  | Ok out => out
  | Raise e => (handle_exception e, db)
  end.

(** ** The serializer fields the application declares *)

Module fields.

(** Python's [str.strip()].  A [str] is held as its UTF-8 encoding, so a
    white-space character is one, two or three bytes long: U+0009 to
    U+000D and U+001C to U+0020; U+0085 and U+00A0; U+1680, U+2000 to
    U+200A, U+2028, U+2029, U+202F, U+205F and U+3000. *)
Definition is_space (c : ascii) : bool :=
  let n := nat_of_ascii c in
  (Nat.leb 9 n && Nat.leb n 13) || (Nat.leb 28 n && Nat.leb n 32).

Definition is_space2 (a b : ascii) : bool :=
  let '(a, b) := (nat_of_ascii a, nat_of_ascii b) in
  Nat.eqb a 194 && (Nat.eqb b 133 || Nat.eqb b 160).

Definition is_space3 (a b c : ascii) : bool :=
  let '(a, b, c) := (nat_of_ascii a, nat_of_ascii b, nat_of_ascii c) in
  (Nat.eqb a 225 && Nat.eqb b 154 && Nat.eqb c 128)
  || (Nat.eqb a 226 && Nat.eqb b 128
      && ((Nat.leb 128 c && Nat.leb c 138) || Nat.eqb c 168 || Nat.eqb c 169
          || Nat.eqb c 175))
  || (Nat.eqb a 226 && Nat.eqb b 129 && Nat.eqb c 159)
  || (Nat.eqb a 227 && Nat.eqb b 128 && Nat.eqb c 128).

(** The white space at the front is dropped, character by character;
    [forwards] is [false] when the string has been turned round, so that
    the bytes of a character come last byte first. *)
Fixpoint lstrip (forwards : bool) (s : string) : string :=
  match s with
  | String a s1 =>
      if is_space a then lstrip forwards s1
      else
        match s1 with
        | String b s2 =>
            if (if forwards then is_space2 a b else is_space2 b a)
            then lstrip forwards s2
            else
              match s2 with
              | String c s3 =>
                  if (if forwards then is_space3 a b c else is_space3 c b a)
                  then lstrip forwards s3
                  else s
              | EmptyString => s
              end
        | EmptyString => s
        end
  | EmptyString => EmptyString
  end.

Definition strip (s : string) : string :=
  String.rev (lstrip false (String.rev (lstrip true s))).

Definition ProhibitNullCharactersValidator (value : string) : list ErrorDetail :=
  if existsb (Ascii.eqb Ascii.zero) (list_ascii_of_string value)
  then [null_characters_not_allowed] else [].

(** [^[-a-zA-Z0-9_]+$] on a stripped value *)
Definition is_slug_char (c : ascii) : bool :=
  let n := nat_of_ascii c in
  (Nat.leb 97 n && Nat.leb n 122) || (Nat.leb 65 n && Nat.leb n 90)
  || (Nat.leb 48 n && Nat.leb n 57) || Nat.eqb n 45 || Nat.eqb n 95.

Definition slug_validator (value : string) : list ErrorDetail :=
  if negb (String.eqb value "") && forallb is_slug_char (list_ascii_of_string value)
  then [] else [invalid].

(** [Field.run_validators]: every validator runs, the errors add up. *)
Definition run_validators (validators : list (string -> list ErrorDetail))
    (value : string) : Result string :=
  match concat ((fun v => v value) <$> validators) with
  | [] => Ok value
  | errs => Raise (ValidationError errs)
  end.

(** [CharField.run_validation] with [trim_whitespace] left at its default:
    a blank input is refused unless [allow_blank]; otherwise the value is
    stripped and validated. *)
Definition run_validation (allow_blank : bool)
    (validators : list (string -> list ErrorDetail)) (data : JSON) : Result string :=
  match data with
  | JString s =>
      if String.eqb s "" || String.eqb (strip s) ""
      then if allow_blank then Ok "" else Raise (ValidationError [blank])
      else run_validators validators (strip s)
  | JList _ => Raise (ValidationError [invalid])
  end.

(** [required=True] *)
Definition required_field {A} (run : JSON -> Result A) (data : option JSON) : Result A :=
  match data with
  | Some d => run d
  | None => Raise (ValidationError [required])
  end.

(** [required=False]: an absent key is skipped. *)
Definition optional_field {A} (run : JSON -> Result A) (data : option JSON)
    : Result (option A) :=
  match data with
  | Some d => let* v := run d in Ok (Some v)
  | None => Ok None
  end.

Definition CharField (allow_blank : bool) : JSON -> Result string :=
  run_validation allow_blank [ProhibitNullCharactersValidator].

Definition SlugField : JSON -> Result string :=
  run_validation false [ProhibitNullCharactersValidator; slug_validator].

(** [ListField()] without a child: any list, its items as they come. *)
Definition ListField (data : JSON) : Result (list string) :=
  match data with
  | JList l => Ok l
  | JString _ => Raise (ValidationError [not_a_list])
  end.

End fields.

(** ** What the application takes from Django as given *)

Record Django := mkDjango {
  EmailValidator : string -> bool;       (* the address is well formed *)
  normalize_email : string -> string;    (* [BaseUserManager.normalize_email] *)
  normalize_username : string -> string; (* [AbstractBaseUser.normalize_username]: NFKC *)
  make_password : string -> string       (* the stored form of a password *)
}.

(** [UserManager.create_user(username, email, password, **extra_fields)]:
    an empty login name is refused; the address and the login name are
    stored in the manager's normal forms. *)
Definition create_user (dj : Django) (env : Env) (db : DB)
    (username email password : string) (first_name last_name : option string)
    : Result (NotesUser.t * DB) :=
  if String.eqb username "" then Raise (ValueError "The given username must be set")
  else
    let user := NotesUser.mk "" (normalize_username dj username)
                  (normalize_email dj email) (make_password dj password)
                  (default "" first_name) (default "" last_name) in
    let* (user, rows) := NotesUser.save env user (users db) in
    Ok (user, set_users rows db).

(** ** serializers.py *)

Module UserRegistrationSerializer.

Record validated_data := mk {
  email : string;
  password : string;
  first_name : option string;
  last_name : option string;
  username : option string
}.

Definition validate_email (db : DB) (value : string) : Result string :=
  if exists_ (NotesUser_filter_email db value)
  then Raise (ValidationError [detail "Email must be unique"])
  else Ok value.

(** [data["username"] = data.get('email')] *)
Definition validate (data : validated_data) : validated_data :=
  mk (email data) (password data) (first_name data) (last_name data)
     (Some (email data)).

Definition EmailField (dj : Django) : JSON -> Result string :=
  fields.run_validation false
    [fields.ProhibitNullCharactersValidator;
     fun value => if EmailValidator dj value then [] else [invalid]].

(** [is_valid()]: each declared field is validated, then its
    [validate_<field>] hook runs; then [validate]. *)
Definition is_valid (dj : Django) (db : DB) (data : gmap string JSON)
    : Validated validated_data :=
  let r_email :=
    let* v := fields.required_field (EmailField dj) (data !! "email") in
    validate_email db v in
  let r_password :=
    fields.required_field (fields.CharField false) (data !! "password") in
  let r_first_name :=
    fields.optional_field (fields.CharField true) (data !! "first_name") in
  let r_last_name :=
    fields.optional_field (fields.CharField true) (data !! "last_name") in
  match r_email, r_password, r_first_name, r_last_name with
  | Ok e, Ok p, Ok f, Ok l => Valid (validate (mk e p f l None))
  | _, _, _, _ =>
      Invalid (field_error "email" r_email ++ field_error "password" r_password
               ++ field_error "first_name" r_first_name
               ++ field_error "last_name" r_last_name)
  end.

Definition create (dj : Django) (env : Env) (db : DB) (data : validated_data)
    : Result (NotesUser.t * DB) :=
  create_user dj env db (default "" (username data)) (email data) (password data)
    (first_name data) (last_name data).

End UserRegistrationSerializer.

Module NoteSerializer.

Record validated_data := mk {
  user_slug : string;
  content : string
}.

Definition validate_user_slug (db : DB) (value : string) : Result string :=
  if negb (exists_ (NotesUser_filter_userslug db value))
  then Raise (ValidationError [detail "User does not exist"])
  else Ok value.

Definition is_valid (db : DB) (data : gmap string JSON) : Validated validated_data :=
  let r_user_slug :=
    let* v := fields.required_field fields.SlugField (data !! "user_slug") in
    validate_user_slug db v in
  let r_content :=
    fields.required_field (fields.CharField false) (data !! "content") in
  match r_user_slug, r_content with
  | Ok u, Ok c => Valid (mk u c)
  | _, _ => Invalid (field_error "user_slug" r_user_slug ++ field_error "content" r_content)
  end.

Definition create (env : Env) (db : DB) (data : validated_data)
    : Result (Note.t * DB) :=
  let* user := get "NotesUser" (NotesUser_filter_userslug db (user_slug data)) in
  let* (note, rows) :=
    Note.objects_create env (NotesUser.userslug user) (content data)
      (NotesUser.userslug user) (notes db) in
  Ok (note, set_notes rows db).

End NoteSerializer.

Module NoteViewSerializer.

(** [last_modified_by_user] is the value the code reads as
    [validated_data.get("last_modified_by_user")["userslug"]]. *)
Record validated_data := mk {
  slug : string;
  content : string;
  last_modified_by_user : string
}.

Definition is_valid (data : gmap string JSON) : Validated validated_data :=
  let r_slug := fields.required_field fields.SlugField (data !! "slug") in
  let r_content := fields.required_field (fields.CharField false) (data !! "content") in
  let r_user :=
    fields.required_field fields.SlugField (data !! "last_modified_by_user") in
  match r_slug, r_content, r_user with
  | Ok s, Ok c, Ok u => Valid (mk s c u)
  | _, _, _ =>
      Invalid (field_error "slug" r_slug ++ field_error "content" r_content
               ++ field_error "last_modified_by_user" r_user)
  end.

(** [update]: [modified_user.exists()] holds exactly when
    [modified_user.first()] is a row, so the two are one match.  The field
    [content] is required, so [validated_data.get('content', ...)] is the
    validated content. *)
Definition update (env : Env) (db : DB) (instance : Note.t) (data : validated_data)
    : Result (Note.t * DB) :=
  let modified_user := NotesUser_filter_userslug db (last_modified_by_user data) in
  match first modified_user with
  | Some user =>
      let original_content := Note.content instance in
      let instance := Note.set_content (content data) instance in
      let instance :=
        Note.set_last_modified_by_user (NotesUser.userslug user) instance in
      let* (instance, rows) := Note.save env instance (notes db) in
      let db := set_notes rows db in
      let '(_, hrows) :=
        NoteHistory.objects_create env instance original_content
          (Note.content instance) user (history db) in
      Ok (instance, set_history hrows db)
  | None => Raise (ValidationError [detail "Invalid user slug provided."])
  end.

End NoteViewSerializer.

Module NoteHistorySerializer.

Record representation := mk {
  note_slug : string;
  original_content : string;
  updated_content : string;
  modified_by : string;
  modified_time : string
}.

Definition get_modified_time (obj : NoteHistory.t) : string :=
  strftime (NoteHistory.timestamp obj).

(** [to_representation]: [note.slug] and [updated_by_user.email] follow
    the foreign keys. *)
Definition to_representation (db : DB) (obj : NoteHistory.t) : Result representation :=
  let* note :=
    get "Note" (List.filter (fun n => Nat.eqb (Note.pk n) (NoteHistory.note obj)) (notes db)) in
  let* user :=
    get "NotesUser" (NotesUser_filter_userslug db (NoteHistory.updated_by_user obj)) in
  Ok (mk (Note.slug note) (NoteHistory.original_content obj)
         (NoteHistory.updated_content obj) (NotesUser.email user)
         (get_modified_time obj)).

End NoteHistorySerializer.

Module SharedNoteSerializer.

Record validated_data := mk {
  note : string;
  shared_by : string;
  shared_with : list string
}.

Definition is_valid (data : gmap string JSON) : Validated validated_data :=
  let r_note := fields.required_field fields.SlugField (data !! "note") in
  let r_shared_by := fields.required_field fields.SlugField (data !! "shared_by") in
  let r_shared_with := fields.required_field fields.ListField (data !! "shared_with") in
  match r_note, r_shared_by, r_shared_with with
  | Ok n, Ok b, Ok w => Valid (mk n b w)
  | _, _, _ =>
      Invalid (field_error "note" r_note ++ field_error "shared_by" r_shared_by
               ++ field_error "shared_with" r_shared_with)
  end.

(** The body of [for slug in shared_with_slugs]. *)
Definition add_recipient (db : DB) (instance : SharedNote.t)
    (rows : list SharedNote.t) (slug : string) : list SharedNote.t :=
  match first (NotesUser_filter_userslug db slug) with
  | Some user => SharedNote.shared_with_add instance user rows
  | None => rows
  end.

(** [create] returns the grant as the table holds it at the end. *)
Definition create (env : Env) (db : DB) (data : validated_data)
    : Result (SharedNote.t * DB) :=
  let* shared_note := get "Note" (Note_filter_slug db (note data)) in
  let* shared_by := get "NotesUser" (NotesUser_filter_userslug db (shared_by data)) in
  let '(instance, rows) :=
    SharedNote.objects_create env shared_note shared_by (shared db) in
  let rows := foldl (add_recipient db instance) rows (shared_with data) in
  let rows := SharedNote.save instance rows in
  Ok (SharedNote.stored instance rows, set_shared rows db).

End SharedNoteSerializer.

(** ** views.py

    Every handler runs after the framework has authenticated the caller. *)

Module UserRegistrationAPIView.

Definition create (dj : Django) (env : Env) (db : DB) (data : gmap string JSON)
    : HttpResponse NotesUser.t * DB :=
  dispatch db
    match UserRegistrationSerializer.is_valid dj db data with
    | Valid validated =>
        let* (user, db') := UserRegistrationSerializer.create dj env db validated in
        Ok (Response 201 "User created successfully. :)" user, db')
    | Invalid errors =>
        Ok (ErrorResponse 400 "Unable to register a User successfully. !" errors, db)
    end.

End UserRegistrationAPIView.

Module NoteCreateAPIView.

Definition create (env : Env) (db : DB) (data : gmap string JSON)
    : HttpResponse NoteSerializer.validated_data * DB :=
  dispatch db
    match NoteSerializer.is_valid db data with
    | Valid validated =>
        let* (_, db') := NoteSerializer.create env db validated in
        Ok (Response 201 "Note created successfully :)" validated, db')
    | Invalid errors =>
        Ok (ErrorResponse 400 "Failed to create Note !" errors, db)
    end.

End NoteCreateAPIView.

Module NoteDetailAPIView.

(** [get_object()]: [get_object_or_404] on [lookup_field = 'slug']. *)
Definition get_object (db : DB) (slug : string) : Result Note.t :=
  match Note_filter_slug db slug with
  | [] => Raise Http404
  | [n] => Ok n
  | _ => Raise (MultipleObjectsReturned "Note")
  end.

Definition retrieve (db : DB) (slug : string) : HttpResponse Note.t * DB :=
  dispatch db
    (let* instance := get_object db slug in
     Ok (Response 200 "Note found" instance, db)).

Definition update (env : Env) (db : DB) (slug : string) (data : gmap string JSON)
    : HttpResponse Note.t * DB :=
  dispatch db
    (let* instance := get_object db slug in
     match NoteViewSerializer.is_valid data with
     | Valid validated =>
         let* (instance, db') := NoteViewSerializer.update env db instance validated in
         Ok (Response 200 "Note updated successfully. :)" instance, db')
     | Invalid errors =>
         Ok (ErrorResponse 400 "Failed to update note. !" errors, db)
     end).

End NoteDetailAPIView.

Module SharedNoteAPIView.

Definition create (env : Env) (db : DB) (data : gmap string JSON)
    : HttpResponse SharedNoteSerializer.validated_data * DB :=
  dispatch db
    match SharedNoteSerializer.is_valid data with
    | Valid validated =>
        let* (_, db') := SharedNoteSerializer.create env db validated in
        Ok (Response 201 "Note Shared successfull. :)" validated, db')
    | Invalid errors =>
        Ok (ErrorResponse 400 "Failed to Share Note !" errors, db)
    end.

End SharedNoteAPIView.

Module NoteVersionHistoryAPIView.

(** [queryset = NoteHistory.objects.all()] *)
Definition queryset (db : DB) : list NoteHistory.t := history db.

Fixpoint serialize_many (db : DB) (objs : list NoteHistory.t)
    : Result (list NoteHistorySerializer.representation) :=
  match objs with
  | [] => Ok []
  | obj :: objs' =>
      let* r := NoteHistorySerializer.to_representation db obj in
      let* rs := serialize_many db objs' in
      Ok (r :: rs)
  end.

(** [ListAPIView.get]: the view declares neither a filter nor a lookup,
    so the [slug] of the route takes no part; the body of the response is
    the serialized queryset (it carries no message). *)
Definition get (db : DB) (slug : string)
    : HttpResponse (list NoteHistorySerializer.representation) * DB :=
  dispatch db
    (let* data := serialize_many db (queryset db) in
     Ok (Response 200 "" data, db)).

End NoteVersionHistoryAPIView.

(** * The vocabulary of the properties

    What it means for a slug to resolve, the constraints [models.py] puts
    on the tables, and the shape of the rows an operation writes. *)

Definition user_exists (db : DB) (slug : string) : Prop :=
  ∃ u, u ∈ users db ∧ NotesUser.userslug u = slug.

Definition note_exists (db : DB) (slug : string) : Prop :=
  ∃ n, n ∈ notes db ∧ Note.slug n = slug.

Definition email_registered (db : DB) (address : string) : Prop :=
  ∃ u, u ∈ users db ∧ NotesUser.email u = address.

(** [userslug] is the primary key of [NotesUser]. *)
Definition users_ok (db : DB) : Prop :=
  NoDup (NotesUser.userslug <$> users db).

(** [id] is the primary key of [Note], [slug] is unique, and [Note.save]
    never stores an empty slug. *)
Definition notes_ok (db : DB) : Prop :=
  NoDup (Note.pk <$> notes db) ∧ NoDup (Note.slug <$> notes db)
  ∧ Forall (fun n => Note.slug n ≠ "") (notes db).

(** The foreign key of [NoteHistory.note]. *)
Definition history_ok (db : DB) : Prop :=
  Forall (fun h => NoteHistory.note h ∈ Note.pk <$> notes db) (history db).

(** The slug [Note.save] draws is a new one. *)
Definition fresh_note_slug (env : Env) (db : DB) : Prop :=
  String.substring 0 9 (uuid4_hex env) ≠ ""
  ∧ ¬ note_exists db (String.substring 0 9 (uuid4_hex env)).

(** The slug [NotesUser.save] draws is a new one. *)
Definition fresh_user_slug (env : Env) (db : DB) : Prop :=
  ¬ user_exists db (String.substring 0 10 (uuid4_hex env)).

(** The row [self] replaces when it is written back. *)
Definition write_back (self : Note.t) (rows : list Note.t) : list Note.t :=
  (fun r => if Nat.eqb (Note.pk r) (Note.pk self) then self else r) <$> rows.

(** What the loop and the final [save] do to one row of the table: the row
    of the grant gains the recipients [added], every other row stays. *)
Definition with_recipients (instance : SharedNote.t) (added : gset string)
    (r : SharedNote.t) : SharedNote.t :=
  if Nat.eqb (SharedNote.pk r) (SharedNote.pk instance)
  then SharedNote.mk (SharedNote.pk r) (SharedNote.note r) (SharedNote.shared_by r)
         (added ∪ SharedNote.shared_with r) (SharedNote.shared_at r)
  else r.

(** [note.history], the reverse side of [NoteHistory.note]
    ([related_name='history']): the ledger of one note, in insertion
    order. *)
Definition Note_history (db : DB) (n : Note.t) : list NoteHistory.t :=
  List.filter (fun h => Nat.eqb (NoteHistory.note h) (Note.pk n)) (history db).

(** A run of [update] calls on one note, each at its own time. *)
Fixpoint update_all (db : DB) (instance : Note.t)
    (calls : list (Env * NoteViewSerializer.validated_data)) : Result (Note.t * DB) :=
  match calls with
  | [] => Ok (instance, db)
  | (env, data) :: calls' =>
      let* (instance', db') := NoteViewSerializer.update env db instance data in
      update_all db' instance' calls'
  end.

(** The entries a run of edits is to leave in the ledger of the note [pk]
    whose content was [before]. *)
Fixpoint entries_of (pk : nat) (before : string)
    (calls : list (Env * NoteViewSerializer.validated_data)) : list NoteHistory.t :=
  match calls with
  | [] => []
  | (env, data) :: calls' =>
      NoteHistory.mk pk before (NoteViewSerializer.content data)
        (NoteViewSerializer.last_modified_by_user data) (now env)
      :: entries_of pk (NoteViewSerializer.content data) calls'
  end.

(** Each entry starts from the content the entry before it left. *)
Fixpoint chained (entries : list NoteHistory.t) : Prop :=
  match entries with
  | a :: (b :: _) as rest =>
      NoteHistory.updated_content a = NoteHistory.original_content b ∧ chained rest
  | _ => True
  end.

(** ** A small database to evaluate the operations on *)

Module Scenario.

Definition django : Django :=
  mkDjango (fun s => existsb (Ascii.eqb "@"%char) (list_ascii_of_string s))
           (fun e => e) (fun n => n) (fun p => "pbkdf2$" +:+ p).

Definition morning : datetime := mkDatetime 2024 3 9 9 5.
Definition afternoon : datetime := mkDatetime 2024 3 9 13 45.

Definition alice : NotesUser.t :=
  NotesUser.mk "0a1b2c3d4e" "a@x.com" "a@x.com" "pbkdf2$pw" "Alice" "".
Definition bob : NotesUser.t :=
  NotesUser.mk "5f6a7b8c9d" "b@x.com" "b@x.com" "pbkdf2$pw" "Bob" "".

Definition hello : Note.t :=
  Note.mk 1 "9f8e7d6c5" "0a1b2c3d4e" "0a1b2c3d4e" "hello" morning.
Definition todo : Note.t :=
  Note.mk 2 "1a2b3c4d5" "5f6a7b8c9d" "5f6a7b8c9d" "milk" morning.

Definition db : DB := mkDB [alice; bob] [hello; todo] [] [].

Definition env : Env := mkEnv afternoon "c0ffee00c0ffee00c0ffee00c0ffee00".

(** [db] after Alice has edited her note once and Bob his. *)
Definition edited : DB :=
  let db1 :=
    (NoteDetailAPIView.update env db "9f8e7d6c5"
       {[ "slug" := JString "9f8e7d6c5"; "content" := JString "hello world";
          "last_modified_by_user" := JString "0a1b2c3d4e" ]}).2 in
  (NoteDetailAPIView.update env db1 "1a2b3c4d5"
     {[ "slug" := JString "1a2b3c4d5"; "content" := JString "milk, eggs";
        "last_modified_by_user" := JString "5f6a7b8c9d" ]}).2.

End Scenario.

(** * More of the application

    ** serializers.py: login

    [authenticate] and [Token.objects.get_or_create] belong to Django and
    the REST framework; they are taken as given, over whatever state [S]
    they keep (credentials, the token table). *)

Record AuthBackend (S : Type) := mkAuthBackend {
  authenticate : S -> string -> string -> option NotesUser.t;
  token_get_or_create : S -> NotesUser.t -> string * S
}.
Arguments mkAuthBackend {S} _ _.
Arguments authenticate {S} _ _ _ _.
Arguments token_get_or_create {S} _ _ _.

Module UserLoginSerializer.

(** The dictionary [validate] is given: [attrs.get(...)] is [None] for an
    absent key. *)
Record attrs := mkAttrs {
  attrs_username : option string;
  attrs_password : option string
}.

(** The dictionary [validate] returns (the user object it also carries is
    the one the other entries are read from). *)
Record validated_data := mk {
  user_slug : string;
  user_name : string;
  token : string;
  user : NotesUser.t
}.

(** Python truth of [attrs.get(key)]: a string that is there and is not
    empty. *)
Definition truthy (v : option string) : option string :=
  match v with
  | Some "" => None
  | other => other
  end.

Definition validate {S} (auth : AuthBackend S) (st : S) (a : attrs)
    : Result (validated_data * S) :=
  match truthy (attrs_username a), truthy (attrs_password a) with
  | Some username, Some password =>
      match authenticate auth st username password with
      | Some u =>
          let '(key, st') := token_get_or_create auth st u in
          let name := NotesUser.first_name u +:+ " " +:+ NotesUser.last_name u in
          Ok (mk (NotesUser.userslug u) name key u, st')
      | None =>
          Raise (ValidationError [detail "Unable to login with provided credentials"])
      end
  | _, _ => Raise (ValidationError [detail "Both username and password are required"])
  end.

(** [is_valid()]: the two declared fields, then [validate]; an error
    [validate] raises is reported under [non_field_errors]. *)
Definition is_valid {S} (auth : AuthBackend S) (st : S) (data : gmap string JSON)
    : Validated validated_data * S :=
  let r_username := fields.required_field (fields.CharField false) (data !! "username") in
  let r_password := fields.required_field (fields.CharField false) (data !! "password") in
  match r_username, r_password with
  | Ok u, Ok p =>
      match validate auth st (mkAttrs (Some u) (Some p)) with
      | Ok (out, st') => (Valid out, st')
      | Raise e => (Invalid (field_error "non_field_errors" (@Raise unit e)), st)
      end
  | _, _ =>
      (Invalid (field_error "username" r_username ++ field_error "password" r_password),
       st)
  end.

End UserLoginSerializer.

(** ** Runs of requests *)

(** A run of [PUT /notes/<slug>/] requests on one slug: the responses, in
    order, and the database at the end. *)
Fixpoint put_all (db : DB) (slug : string) (calls : list (Env * gmap string JSON))
    : list (HttpResponse Note.t) * DB :=
  match calls with
  | [] => ([], db)
  | (env, request) :: calls' =>
      let '(response, db') := NoteDetailAPIView.update env db slug request in
      let '(responses, db'') := put_all db' slug calls' in
      (response :: responses, db'')
  end.

(** ** More vocabulary *)

(** [email] is unique in [NotesUser]. *)
Definition emails_unique (db : DB) : Prop :=
  NoDup (NotesUser.email <$> users db).

(** [username] is unique in [NotesUser]. *)
Definition usernames_unique (db : DB) : Prop :=
  NoDup (NotesUser.username <$> users db).

(** [id] is the primary key of [SharedNote]. *)
Definition shared_ok (db : DB) : Prop :=
  NoDup (SharedNote.pk <$> shared db).

(** The foreign key of [NoteHistory.updated_by_user]. *)
Definition editors_ok (db : DB) : Prop :=
  Forall (fun h => NoteHistory.updated_by_user h ∈ NotesUser.userslug <$> users db)
    (history db).

(** What one entry of the history response shows of one ledger row. *)
Definition represents (db : DB) (h : NoteHistory.t)
    (r : NoteHistorySerializer.representation) : Prop :=
  (∃ n, n ∈ notes db ∧ Note.pk n = NoteHistory.note h
        ∧ NoteHistorySerializer.note_slug r = Note.slug n)
  ∧ (∃ u, u ∈ users db ∧ NotesUser.userslug u = NoteHistory.updated_by_user h
          ∧ NoteHistorySerializer.modified_by r = NotesUser.email u)
  ∧ NoteHistorySerializer.original_content r = NoteHistory.original_content h
  ∧ NoteHistorySerializer.updated_content r = NoteHistory.updated_content h
  ∧ NoteHistorySerializer.modified_time r = NoteHistory.formatted_timestamp h.

(** A date and time of the calendar, with a year of four digits. *)
Definition calendar (t : datetime) : Prop :=
  (1000 ≤ year t ∧ year t < 10 * 1000 ∧ 1 ≤ month t ∧ month t ≤ 12
   ∧ 1 ≤ day t ∧ day t ≤ 31 ∧ hour t < 24 ∧ minute t < 60)%nat.

(** ** The routes of [urls.py] over the tables

    [urlpatterns] without [login/] and [logout/], which read and write the
    tokens and the session and none of the four tables. *)
Inductive Call :=
| PostSignup (request : gmap string JSON)
| PostNote (request : gmap string JSON)
| PostShare (request : gmap string JSON)
| GetNote (slug : string)
| PutNote (slug : string) (request : gmap string JSON)
| GetHistory (slug : string).

(** The database a call leaves behind. *)
Definition serve (dj : Django) (env : Env) (db : DB) (call : Call) : DB :=
  match call with
  | PostSignup request => (UserRegistrationAPIView.create dj env db request).2
  | PostNote request => (NoteCreateAPIView.create env db request).2
  | PostShare request => (SharedNoteAPIView.create env db request).2
  | GetNote slug => (NoteDetailAPIView.retrieve db slug).2
  | PutNote slug request => (NoteDetailAPIView.update env db slug request).2
  | GetHistory slug => (NoteVersionHistoryAPIView.get db slug).2
  end.

Definition serve_all (dj : Django) (db : DB) (calls : list (Env * Call)) : DB :=
  foldl (fun db call => serve dj call.1 db call.2) db calls.

(** The constraints of the four tables together. *)
Definition constraints (db : DB) : Prop :=
  users_ok db ∧ emails_unique db ∧ usernames_unique db
  ∧ notes_ok db ∧ history_ok db ∧ editors_ok db ∧ shared_ok db.

(** ** More cases to evaluate the operations on *)

Module Cases.

Definition lower (c : ascii) : ascii :=
  let n := nat_of_ascii c in
  if Nat.leb 65 n && Nat.leb n 90 then ascii_of_nat (n + 32) else c.

Fixpoint lower_all (s : string) : string :=
  match s with
  | String c s' => String (lower c) (lower_all s')
  | EmptyString => EmptyString
  end.

(** [s.rsplit('@', 1)] *)
Fixpoint rsplit_at (s : string) : option (string * string) :=
  match s with
  | String c s' =>
      match rsplit_at s' with
      | Some (name, domain) => Some (String c name, domain)
      | None => if Ascii.eqb c "@" then Some (EmptyString, s') else None
      end
  | EmptyString => None
  end.

(** [BaseUserManager.normalize_email] on addresses whose domain is ASCII:
    the domain part of the stripped address in lower case. *)
Definition lower_domain (address : string) : string :=
  match rsplit_at (fields.strip address) with
  | Some (name, domain) => name +:+ "@" +:+ lower_all domain
  | None => address
  end.

(** The Kelvin sign (U+212A), three bytes long. *)
Definition kelvin : string :=
  String (ascii_of_nat 226) (String (ascii_of_nat 132) (String (ascii_of_nat 170) "")).

(** NFKC on text that is ASCII but for Kelvin signs, which it turns into
    the letter [K]; ASCII text is in normal form already. *)
Fixpoint nfkc (s : string) : string :=
  match s with
  | String a s1 =>
      match s1 with
      | String b (String c s3) =>
          if Nat.eqb (nat_of_ascii a) 226 && Nat.eqb (nat_of_ascii b) 132
             && Nat.eqb (nat_of_ascii c) 170
          then String "K" (nfkc s3)
          else String a (nfkc s1)
      | _ => String a (nfkc s1)
      end
  | EmptyString => EmptyString
  end.

Definition django : Django :=
  mkDjango (fun s => existsb (Ascii.eqb "@"%char) (list_ascii_of_string s))
           lower_domain nfkc (fun p => "pbkdf2$" +:+ p).

(** A login backend over the user table: the stored password is compared
    with the hash of the one given; the tokens are a map from user slugs to
    keys, and a new key is taken from a supply. *)
Definition auth (db : DB) : AuthBackend (gmap string string * list string) :=
  mkAuthBackend
    (fun _ username password =>
       find (fun u => String.eqb (NotesUser.username u) username
                      && String.eqb (NotesUser.password u)
                           (make_password Scenario.django password))
            (users db))
    (fun st u =>
       match st.1 !! NotesUser.userslug u with
       | Some key => (key, st)
       | None =>
           let key := default "" (head st.2) in
           (key, (<[NotesUser.userslug u := key]> st.1, tail st.2))
       end).

Definition carol : NotesUser.t :=
  NotesUser.mk "7e7e7e7e7e" "carol@EXAMPLE.com" "carol@example.com" "pbkdf2$pw" "" "".

(** [Scenario.db] with a third user, whose address was written with a
    domain in capitals. *)
Definition db : DB := set_users (users Scenario.db ++ [carol]) Scenario.db.

(** [Scenario.edited] with a grant on the note of Alice. *)
Definition shared_once : DB :=
  (SharedNoteAPIView.create Scenario.env Scenario.edited
     {[ "note" := JString "9f8e7d6c5"; "shared_by" := JString "0a1b2c3d4e";
        "shared_with" := JList ["5f6a7b8c9d"] ]}).2.

Definition night : datetime := mkDatetime 2024 12 31 0 7.

(** A later request, which draws another UUID. *)
Definition later : Env := mkEnv night "0123456789abcdef0123456789abcdef".

End Cases.

(** * Lemmas and theorems *)

(** ** Lemmas on the queries *)

Section Queries.
Context {A : Type}.

Lemma filter_eqb_elem_of (col : A -> string) (v : string) (rows : list A) (r : A) :
  r ∈ List.filter (fun x => String.eqb (col x) v) rows ↔ r ∈ rows ∧ col r = v.
Proof.
  rewrite !list_elem_of_In, filter_In, String.eqb_eq. reflexivity.
Qed.

Lemma filter_eqb_nil (col : A -> string) (v : string) (rows : list A) :
  List.filter (fun x => String.eqb (col x) v) rows = [] ↔ ∀ r, r ∈ rows → col r ≠ v.
Proof.
  split.
  - intros Hnil r Hr Hv.
    assert (Hin : r ∈ List.filter (fun x => String.eqb (col x) v) rows)
      by (apply filter_eqb_elem_of; auto).
    rewrite Hnil in Hin. inversion Hin.
  - intros Hall. destruct (List.filter _ rows) as [|r l] eqn:E; [done|].
    assert (Hin : r ∈ List.filter (fun x => String.eqb (col x) v) rows)
      by (rewrite E; left).
    apply filter_eqb_elem_of in Hin as [Hr Hv]. destruct (Hall r Hr Hv).
Qed.

Lemma NoDup_fmap_elem_inj {B} (f : A -> B) (rows : list A) (x y : A) :
  NoDup (f <$> rows) → x ∈ rows → y ∈ rows → f x = f y → x = y.
Proof.
  induction rows as [|r rows IH]; simpl; intros Hnd Hx Hy Hf.
  - inversion Hx.
  - apply NoDup_cons in Hnd as [Hnotin Hnd].
    apply elem_of_cons in Hx as [->|Hx]; apply elem_of_cons in Hy as [->|Hy]; auto.
    + exfalso. apply Hnotin. rewrite Hf. apply list_elem_of_fmap. eauto.
    + exfalso. apply Hnotin. rewrite <- Hf. apply list_elem_of_fmap. eauto.
Qed.

(** A unique column selects at most the row that holds the value. *)
Lemma filter_eqb_unique (col : A -> string) (rows : list A) (r : A) :
  NoDup (col <$> rows) → r ∈ rows →
  List.filter (fun x => String.eqb (col x) (col r)) rows = [r].
Proof.
  induction rows as [|x rows IH]; simpl; intros Hnd Hr.
  - inversion Hr.
  - apply NoDup_cons in Hnd as [Hnotin Hnd].
    apply elem_of_cons in Hr as [->|Hr].
    + rewrite String.eqb_refl. f_equal.
      apply filter_eqb_nil. intros y Hy Heq. apply Hnotin. rewrite <- Heq.
      apply list_elem_of_fmap. eauto.
    + destruct (String.eqb (col x) (col r)) eqn:E; [|auto].
      apply String.eqb_eq in E. exfalso. apply Hnotin. rewrite E.
      apply list_elem_of_fmap. eauto.
Qed.

End Queries.

Lemma first_user_None (db : DB) (slug : string) :
  first (NotesUser_filter_userslug db slug) = None ↔ ¬ user_exists db slug.
Proof.
  unfold first, NotesUser_filter_userslug, user_exists. rewrite head_None, filter_eqb_nil.
  split.
  - intros H [u [Hu Hs]]. exact (H u Hu Hs).
  - intros H u Hu Hs. apply H. eauto.
Qed.

Lemma first_user_Some (db : DB) (slug : string) (u : NotesUser.t) :
  first (NotesUser_filter_userslug db slug) = Some u →
  u ∈ users db ∧ NotesUser.userslug u = slug.
Proof.
  unfold first, NotesUser_filter_userslug. intros H.
  apply (filter_eqb_elem_of NotesUser.userslug). apply head_Some_elem_of. exact H.
Qed.

Lemma first_user_exists (db : DB) (slug : string) :
  user_exists db slug → ∃ u, first (NotesUser_filter_userslug db slug) = Some u.
Proof.
  intros Hex. destruct (first (NotesUser_filter_userslug db slug)) eqn:E; [eauto|].
  apply first_user_None in E. contradiction.
Qed.

Lemma exists_user (db : DB) (slug : string) :
  exists_ (NotesUser_filter_userslug db slug) = true ↔ user_exists db slug.
Proof.
  split.
  - intros H. destruct (NotesUser_filter_userslug db slug) as [|u l] eqn:E; [done|].
    exists u. apply (filter_eqb_elem_of NotesUser.userslug).
    fold (NotesUser_filter_userslug db slug). rewrite E. left.
  - intros H. apply first_user_exists in H as [u Hu].
    unfold first in Hu. destruct (NotesUser_filter_userslug db slug); [done|done].
Qed.

Lemma get_user (db : DB) (u : NotesUser.t) :
  users_ok db → u ∈ users db →
  get "NotesUser" (NotesUser_filter_userslug db (NotesUser.userslug u)) = Ok u.
Proof.
  intros Hok Hu. unfold NotesUser_filter_userslug.
  rewrite (filter_eqb_unique NotesUser.userslug) by assumption. reflexivity.
Qed.

Lemma get_note (db : DB) (n : Note.t) :
  notes_ok db → n ∈ notes db → Note_filter_slug db (Note.slug n) = [n].
Proof.
  intros (_ & Hslug & _) Hn. unfold Note_filter_slug.
  apply (filter_eqb_unique Note.slug); assumption.
Qed.

(** ** [Note.save] on a stored note *)

Lemma Note_save_stored (env : Env) (self stored : Note.t) (rows : list Note.t) :
  NoDup (Note.slug <$> rows) → stored ∈ rows →
  Note.pk self = Note.pk stored → Note.slug self = Note.slug stored →
  Note.slug stored ≠ "" →
  Note.save env self rows = Ok (self, write_back self rows).
Proof.
  intros Hslugs Hin Hpk Hslug Hne. unfold Note.save.
  assert (String.eqb (Note.slug self) "" = false) as -> by (apply String.eqb_neq; congruence).
  assert (existsb (fun r => Nat.eqb (Note.pk r) (Note.pk self)) rows = true) as ->.
  { apply existsb_exists. exists stored. split; [by apply list_elem_of_In|].
    apply Nat.eqb_eq. congruence. }
  assert (unique_violation Note.slug (Note.slug self)
            (filter (fun r => Note.pk r ≠ Note.pk self) rows) = false) as ->; [|done].
  unfold unique_violation.
  destruct (existsb _ _) eqn:E; [|done].
  apply existsb_exists in E as (x & Hx & Heq).
  apply list_elem_of_In, list_elem_of_filter in Hx as [Hpkx Hxin].
  apply String.eqb_eq in Heq. exfalso. apply Hpkx.
  rewrite (NoDup_fmap_elem_inj Note.slug rows x stored); [done|done|done|done|congruence].
Qed.

Lemma write_back_column {B} (col : Note.t -> B) (self stored : Note.t) (rows : list Note.t) :
  NoDup (Note.pk <$> rows) → stored ∈ rows →
  Note.pk self = Note.pk stored → col self = col stored →
  col <$> write_back self rows = col <$> rows.
Proof.
  intros Hpks Hin Hpk Hcol. unfold write_back. rewrite <- list_fmap_compose.
  apply list_eq. intros i. rewrite !list_lookup_fmap.
  destruct (rows !! i) as [r|] eqn:E; [|done]. simpl. f_equal.
  destruct (Nat.eqb (Note.pk r) (Note.pk self)) eqn:Eq; [|done].
  apply Nat.eqb_eq in Eq. rewrite Hcol. f_equal.
  apply (NoDup_fmap_elem_inj Note.pk rows); [done|done| |congruence].
  by eapply list_elem_of_lookup_2.
Qed.

Lemma write_back_stored (self stored : Note.t) (rows : list Note.t) :
  stored ∈ rows → Note.pk self = Note.pk stored →
  self ∈ write_back self rows
  ∧ ∀ n, n ∈ write_back self rows → Note.pk n = Note.pk self → n = self.
Proof.
  intros Hin Hpk. unfold write_back. split.
  - apply list_elem_of_fmap. exists stored. split; [|done].
    rewrite <- Hpk, Nat.eqb_refl. done.
  - intros n Hn Hpkn. apply list_elem_of_fmap in Hn as (r & -> & Hr).
    destruct (Nat.eqb (Note.pk r) (Note.pk self)) eqn:E; [done|].
    apply Nat.eqb_neq in E. contradiction.
Qed.

(** What [update] computes for an editor who resolves. *)
Lemma update_resolved (env : Env) (db : DB) (instance : Note.t)
    (data : NoteViewSerializer.validated_data) :
  notes_ok db → instance ∈ notes db →
  user_exists db (NoteViewSerializer.last_modified_by_user data) →
  let instance' :=
    Note.set_last_modified_by_user (NoteViewSerializer.last_modified_by_user data)
      (Note.set_content (NoteViewSerializer.content data) instance) in
  NoteViewSerializer.update env db instance data =
  Ok (instance',
      set_history
        (history db ++
           [NoteHistory.mk (Note.pk instance) (Note.content instance)
              (NoteViewSerializer.content data)
              (NoteViewSerializer.last_modified_by_user data) (now env)])
        (set_notes (write_back instance' (notes db)) db)).
Proof.
  intros (Hpks & Hslugs & Hne) Hin Hex instance'.
  unfold NoteViewSerializer.update.
  destruct (first_user_exists _ _ Hex) as [u Hu]. rewrite Hu.
  apply first_user_Some in Hu as [_ Hslug]. rewrite Hslug. fold instance'.
  rewrite Forall_forall in Hne.
  rewrite (Note_save_stored env instance' instance);
    [|done|done|done|done|by apply Hne].
  simpl. unfold NoteHistory.objects_create. simpl. rewrite Hslug. reflexivity.
Qed.

(** ** update_note *)

(** C2: when the editor slug resolves to no user, [update] raises the
    validation error [Invalid user slug provided.] whatever the note and the
    new content are.  The handler of [PUT /notes/<slug>/] then answers 400
    with that error and the database it returns is the one it was given: the
    note keeps its content and its last editor and the ledger gains no
    entry. *)
Theorem update_note_unknown_editor (env : Env) (db : DB) (instance : Note.t)
    (data : NoteViewSerializer.validated_data) :
  ¬ user_exists db (NoteViewSerializer.last_modified_by_user data) →
  NoteViewSerializer.update env db instance data
    = Raise (ValidationError [detail "Invalid user slug provided."])
  ∧ ∀ slug request,
      NoteDetailAPIView.get_object db slug = Ok instance →
      NoteViewSerializer.is_valid request = Valid data →
      NoteDetailAPIView.update env db slug request
        = (ExceptionResponse 400 [detail "Invalid user slug provided."], db).
Proof.
  intros Hno. apply first_user_None in Hno.
  assert (Hraise : NoteViewSerializer.update env db instance data
                   = Raise (ValidationError [detail "Invalid user slug provided."])).
  { unfold NoteViewSerializer.update. rewrite Hno. reflexivity. }
  split; [exact Hraise|].
  intros slug request Hget Hvalid.
  unfold NoteDetailAPIView.update. rewrite Hget. simpl. rewrite Hvalid, Hraise.
  reflexivity.
Qed.

Lemma update_note_unknown_editor_witness :
  ¬ user_exists Scenario.db "nobody000"
  ∧ NoteViewSerializer.update Scenario.env Scenario.db Scenario.hello
      (NoteViewSerializer.mk "9f8e7d6c5" "hello world" "nobody000")
    = Raise (ValidationError [detail "Invalid user slug provided."])
  ∧ NoteDetailAPIView.update Scenario.env Scenario.db "9f8e7d6c5"
      {[ "slug" := JString "9f8e7d6c5"; "content" := JString "hello world";
         "last_modified_by_user" := JString "nobody000" ]}
    = (ExceptionResponse 400 [detail "Invalid user slug provided."], Scenario.db).
Proof.
  assert (Hno : ¬ user_exists Scenario.db "nobody000")
    by (apply first_user_None; reflexivity).
  split; [exact Hno|].
  destruct (update_note_unknown_editor Scenario.env Scenario.db Scenario.hello
              (NoteViewSerializer.mk "9f8e7d6c5" "hello world" "nobody000") Hno)
    as [Hraise Hview].
  split; [exact Hraise|].
  apply Hview; reflexivity.
Defined.

(** C3: for a stored note and an editor slug that resolves, [update]
    succeeds; the note it returns and stores has the new content and the
    editor as [last_modified_by_user], and the ledger is the old ledger
    followed by exactly one entry: this note, the content before the call,
    the new content, the editor, the current time.  Nothing compares the new
    content with the old one, so the entry is appended when they are equal
    too. *)
Theorem update_note_effect (env : Env) (db : DB) (instance : Note.t)
    (data : NoteViewSerializer.validated_data) :
  notes_ok db → instance ∈ notes db →
  user_exists db (NoteViewSerializer.last_modified_by_user data) →
  ∃ instance' db',
    NoteViewSerializer.update env db instance data = Ok (instance', db')
    ∧ Note.content instance' = NoteViewSerializer.content data
    ∧ Note.last_modified_by_user instance'
      = NoteViewSerializer.last_modified_by_user data
    ∧ instance' ∈ notes db'
    ∧ (∀ n, n ∈ notes db' → Note.pk n = Note.pk instance → n = instance')
    ∧ history db'
      = history db ++
          [NoteHistory.mk (Note.pk instance) (Note.content instance)
             (NoteViewSerializer.content data)
             (NoteViewSerializer.last_modified_by_user data) (now env)].
Proof.
  intros Hok Hin Hex. eexists _, _.
  split; [apply update_resolved; assumption|].
  destruct (write_back_stored
              (Note.set_last_modified_by_user
                 (NoteViewSerializer.last_modified_by_user data)
                 (Note.set_content (NoteViewSerializer.content data) instance))
              instance (notes db) Hin eq_refl) as [Hstored Honly].
  repeat split; auto.
Qed.

Lemma update_note_effect_witness :
  notes_ok Scenario.db ∧ Scenario.hello ∈ notes Scenario.db
  ∧ user_exists Scenario.db "5f6a7b8c9d"
  ∧ ∃ instance' db',
      NoteViewSerializer.update Scenario.env Scenario.db Scenario.hello
        (NoteViewSerializer.mk "9f8e7d6c5" "hello" "5f6a7b8c9d") = Ok (instance', db')
      ∧ Note.content instance' = "hello"
      ∧ Note.last_modified_by_user instance' = "5f6a7b8c9d"
      ∧ instance' ∈ notes db'
      ∧ (∀ n, n ∈ notes db' → Note.pk n = 1 → n = instance')
      ∧ history db'
        = [NoteHistory.mk 1 "hello" "hello" "5f6a7b8c9d" Scenario.afternoon].
Proof.
  assert (Hok : notes_ok Scenario.db) by (unfold notes_ok; compute_done).
  assert (Hin : Scenario.hello ∈ notes Scenario.db) by compute_done.
  assert (Hex : user_exists Scenario.db "5f6a7b8c9d")
    by (apply exists_user; reflexivity).
  repeat (split; [assumption|]).
  exact (update_note_effect Scenario.env Scenario.db Scenario.hello
           (NoteViewSerializer.mk "9f8e7d6c5" "hello" "5f6a7b8c9d") Hok Hin Hex).
Defined.

(** C8: a successful [update] of a stored note returns a note with the
    [slug], [created_by_user] and [created_at] (and primary key) it had,
    and leaves these three columns of the whole [Note] table as they
    were. *)
Theorem update_note_frame (env : Env) (db db' : DB) (instance instance' : Note.t)
    (data : NoteViewSerializer.validated_data) :
  notes_ok db → instance ∈ notes db →
  NoteViewSerializer.update env db instance data = Ok (instance', db') →
  (Note.pk instance' = Note.pk instance
   ∧ Note.slug instance' = Note.slug instance
   ∧ Note.created_by_user instance' = Note.created_by_user instance
   ∧ Note.created_at instance' = Note.created_at instance)
  ∧ Note.slug <$> notes db' = Note.slug <$> notes db
  ∧ Note.created_by_user <$> notes db' = Note.created_by_user <$> notes db
  ∧ Note.created_at <$> notes db' = Note.created_at <$> notes db.
Proof.
  intros Hok Hin Hupd.
  destruct (first (NotesUser_filter_userslug db
              (NoteViewSerializer.last_modified_by_user data))) as [u|] eqn:Hu.
  - assert (Hex : user_exists db (NoteViewSerializer.last_modified_by_user data)).
    { apply exists_user. unfold first in Hu.
      by destruct (NotesUser_filter_userslug db _). }
    rewrite (update_resolved env db instance data Hok Hin Hex) in Hupd.
    injection Hupd as <- <-. destruct Hok as (Hpks & _ & _). simpl.
    split; [done|].
    repeat split; by apply (write_back_column _ _ instance).
  - unfold NoteViewSerializer.update in Hupd. rewrite Hu in Hupd. discriminate.
Qed.

Lemma update_note_frame_witness :
  notes_ok Scenario.db ∧ Scenario.hello ∈ notes Scenario.db
  ∧ ∃ instance' db',
      NoteViewSerializer.update Scenario.env Scenario.db Scenario.hello
        (NoteViewSerializer.mk "othername" "hello world" "5f6a7b8c9d")
      = Ok (instance', db')
      ∧ Note.slug instance' = "9f8e7d6c5"
      ∧ Note.created_by_user instance' = "0a1b2c3d4e"
      ∧ Note.created_at instance' = Scenario.morning
      ∧ Note.slug <$> notes db' = ["9f8e7d6c5"; "1a2b3c4d5"].
Proof.
  set (data := NoteViewSerializer.mk "othername" "hello world" "5f6a7b8c9d").
  assert (Hok : notes_ok Scenario.db) by (unfold notes_ok; compute_done).
  assert (Hin : Scenario.hello ∈ notes Scenario.db) by compute_done.
  assert (Hex : user_exists Scenario.db "5f6a7b8c9d")
    by (apply exists_user; reflexivity).
  repeat (split; [assumption|]).
  pose proof (update_resolved Scenario.env Scenario.db Scenario.hello data Hok Hin Hex)
    as Hupd.
  cbv zeta in Hupd. eexists _, _. split; [exact Hupd|].
  destruct (update_note_frame _ _ _ _ _ data Hok Hin Hupd)
    as ((_ & Hs & Hc & Ht) & Hss & _ & _).
  split; [exact Hs|]. split; [exact Hc|]. split; [exact Ht|exact Hss].
Defined.

(** ** The ledger of one note

    [update] keeps the constraints of the [Note] table, so it can be
    iterated; a run of [N] edits of one note appends [N] entries to the
    ledger of that note, in the order of the calls, each starting from the
    content the one before it left. *)

Lemma update_succeeds_inv (env : Env) (db db' : DB) (instance instance' : Note.t)
    (data : NoteViewSerializer.validated_data) :
  NoteViewSerializer.update env db instance data = Ok (instance', db') →
  user_exists db (NoteViewSerializer.last_modified_by_user data).
Proof.
  unfold NoteViewSerializer.update. intros H. apply exists_user.
  unfold first in H. destruct (NotesUser_filter_userslug db _); [discriminate|done].
Qed.

Lemma update_keeps_notes_ok (env : Env) (db db' : DB) (instance instance' : Note.t)
    (data : NoteViewSerializer.validated_data) :
  notes_ok db → instance ∈ notes db →
  NoteViewSerializer.update env db instance data = Ok (instance', db') →
  notes_ok db' ∧ instance' ∈ notes db' ∧ users db' = users db
  ∧ Note.pk instance' = Note.pk instance
  ∧ Note.content instance' = NoteViewSerializer.content data
  ∧ history db'
    = history db ++
        [NoteHistory.mk (Note.pk instance) (Note.content instance)
           (NoteViewSerializer.content data)
           (NoteViewSerializer.last_modified_by_user data) (now env)].
Proof.
  intros Hok Hin Hupd. pose proof (update_succeeds_inv _ _ _ _ _ _ Hupd) as Hex.
  rewrite (update_resolved env db instance data Hok Hin Hex) in Hupd.
  injection Hupd as <- <-. destruct Hok as (Hpks & Hslugs & Hne). simpl.
  set (instance' := Note.set_last_modified_by_user _ _).
  split; [|split; [by apply (write_back_stored instance' instance)|done]].
  unfold notes_ok. simpl.
  rewrite (write_back_column Note.pk instance' instance) by done.
  rewrite (write_back_column Note.slug instance' instance) by done.
  split; [done|]. split; [done|].
  apply (Forall_fmap Note.slug (fun s => s ≠ "")).
  rewrite (write_back_column Note.slug instance' instance) by done.
  by apply Forall_fmap.
Qed.

Lemma Note_history_app (db db' : DB) (n : Note.t) (entries : list NoteHistory.t) :
  history db' = history db ++ entries →
  Forall (fun h => NoteHistory.note h = Note.pk n) entries →
  Note_history db' n = Note_history db n ++ entries.
Proof.
  intros Hhist Hall. unfold Note_history. rewrite Hhist, List.filter_app. f_equal.
  clear Hhist. induction Hall as [|h l Hh _ IH]; simpl; [done|].
  rewrite Hh, Nat.eqb_refl, IH. done.
Qed.

Lemma entries_of_length pk before calls :
  length (entries_of pk before calls) = length calls.
Proof.
  revert before. induction calls as [|[env data] calls IH]; intros before; simpl;
    [done|]. by rewrite IH.
Qed.

Lemma entries_of_note pk before calls :
  Forall (fun h => NoteHistory.note h = pk) (entries_of pk before calls).
Proof.
  revert before. induction calls as [|[env data] calls IH]; intros before; simpl;
    constructor; [done|apply IH].
Qed.

Lemma entries_of_updated pk before calls :
  NoteHistory.updated_content <$> entries_of pk before calls
  = (fun c => NoteViewSerializer.content c.2) <$> calls.
Proof.
  revert before. induction calls as [|[env data] calls IH]; intros before; simpl;
    [done|]. by rewrite IH.
Qed.

Lemma entries_of_chained pk before calls : chained (entries_of pk before calls).
Proof.
  revert before. induction calls as [|[env data] calls IH]; intros before; [done|].
  specialize (IH (NoteViewSerializer.content data)).
  simpl. destruct calls as [|[env' data'] calls]; [done|]. simpl in *. done.
Qed.

Lemma update_all_appends (calls : list (Env * NoteViewSerializer.validated_data)) :
  ∀ (db : DB) (instance : Note.t),
  notes_ok db → instance ∈ notes db →
  Forall (fun c => user_exists db (NoteViewSerializer.last_modified_by_user c.2)) calls →
  ∃ instance' db',
    update_all db instance calls = Ok (instance', db')
    ∧ history db'
      = history db ++ entries_of (Note.pk instance) (Note.content instance) calls.
Proof.
  induction calls as [|[env data] calls IH]; intros db instance Hok Hin Hall.
  - exists instance, db. simpl. rewrite app_nil_r. done.
  - apply Forall_cons in Hall as [Hex Hall]. simpl in Hex.
    destruct (NoteViewSerializer.update env db instance data)
      as [[instance1 db1]|e] eqn:Hupd;
      [|rewrite (update_resolved env db instance data Hok Hin Hex) in Hupd;
        discriminate].
    destruct (update_keeps_notes_ok _ _ _ _ _ _ Hok Hin Hupd)
      as (Hok1 & Hin1 & Husers & Hpk & Hcontent & Hhist).
    assert (Hall1 : Forall (fun c => user_exists db1
                              (NoteViewSerializer.last_modified_by_user c.2)) calls).
    { eapply Forall_impl; [exact Hall|]. intros c (u & Hu & Hs).
      exists u. rewrite Husers. done. }
    destruct (IH db1 instance1 Hok1 Hin1 Hall1) as (instance' & db' & Hrun & Hhist').
    exists instance', db'. simpl. rewrite Hupd. simpl.
    split; [exact Hrun|].
    rewrite Hhist', Hhist, Hpk, Hcontent, <- app_assoc. done.
Qed.

(** After [N] edits of a stored note by editors who resolve, the ledger of
    the note has [N] more entries, in the order of the calls, all of them
    entries of this note, and chained. *)
Lemma ledger_after_updates (calls : list (Env * NoteViewSerializer.validated_data))
    (db : DB) (instance : Note.t) :
  notes_ok db → instance ∈ notes db →
  Forall (fun c => user_exists db (NoteViewSerializer.last_modified_by_user c.2)) calls →
  ∃ instance' db' entries,
    update_all db instance calls = Ok (instance', db')
    ∧ Note_history db' instance = Note_history db instance ++ entries
    ∧ length entries = length calls
    ∧ Forall (fun h => NoteHistory.note h = Note.pk instance) entries
    ∧ chained entries
    ∧ NoteHistory.updated_content <$> entries
      = (fun c => NoteViewSerializer.content c.2) <$> calls.
Proof.
  intros Hok Hin Hall.
  destruct (update_all_appends calls db instance Hok Hin Hall)
    as (instance' & db' & Hrun & Hhist).
  exists instance', db', (entries_of (Note.pk instance) (Note.content instance) calls).
  split; [exact Hrun|].
  split; [apply (Note_history_app db db' instance _ Hhist), entries_of_note|].
  split; [apply entries_of_length|].
  split; [apply entries_of_note|].
  split; [apply entries_of_chained|apply entries_of_updated].
Qed.

(** ** create_note *)

Lemma exists_note (db : DB) (slug : string) :
  exists_ (Note_filter_slug db slug) = true ↔ note_exists db slug.
Proof.
  unfold note_exists, Note_filter_slug. split.
  - intros H. destruct (List.filter _ _) as [|n l] eqn:E; [done|].
    exists n. apply (filter_eqb_elem_of Note.slug). rewrite E. left.
  - intros (n & Hn & Heq).
    pose proof (proj2 (filter_eqb_elem_of Note.slug slug (notes db) n) (conj Hn Heq))
      as Hin.
    by destruct (List.filter _ _); [inversion Hin|].
Qed.

Lemma next_pk_above (rows : list Note.t) (r : Note.t) :
  r ∈ rows → Note.pk r < Note.next_pk rows.
Proof.
  unfold Note.next_pk. induction rows as [|x rows IH]; intros Hr.
  - inversion Hr.
  - rewrite fmap_cons. cbn [foldr].
    pose proof (Nat.le_max_l (Note.pk x) (foldr Nat.max 0 (Note.pk <$> rows))).
    pose proof (Nat.le_max_r (Note.pk x) (foldr Nat.max 0 (Note.pk <$> rows))).
    apply elem_of_cons in Hr as [->|Hr]; [lia|].
    specialize (IH Hr). lia.
Qed.

Lemma unique_violation_false {A} (col : A -> string) (v : string) (rows : list A) :
  (∀ r, r ∈ rows → col r ≠ v) → unique_violation col v rows = false.
Proof.
  intros H. unfold unique_violation. destruct (existsb _ _) eqn:E; [|done].
  apply existsb_exists in E as (x & Hx & Heq).
  apply list_elem_of_In in Hx. apply String.eqb_eq in Heq. destruct (H x Hx Heq).
Qed.

Lemma Note_objects_create_fresh (env : Env) (db : DB) (created_by content modified_by : string) :
  fresh_note_slug env db →
  Note.objects_create env created_by content modified_by (notes db)
  = let note := Note.mk (Note.next_pk (notes db)) (String.substring 0 9 (uuid4_hex env))
                  created_by modified_by content (now env) in
    Ok (note, notes db ++ [note]).
Proof.
  intros [Hne Hfresh]. unfold Note.objects_create, Note.save. simpl.
  assert (existsb (fun r => Nat.eqb (Note.pk r) (Note.next_pk (notes db))) (notes db)
          = false) as ->.
  { destruct (existsb _ _) eqn:E; [|done].
    apply existsb_exists in E as (x & Hx & Heq).
    apply list_elem_of_In, next_pk_above in Hx. apply Nat.eqb_eq in Heq. lia. }
  unfold Note.generate_random_slug, Note.set_created_at. simpl.
  rewrite unique_violation_false; [done|].
  intros r Hr Heq. apply Hfresh. exists r. done.
Qed.

(** C4: [NoteSerializer] on an owner slug and a content, whatever they are.
    When [owner] resolves to no user, the operation fails: [validate_user_slug]
    raises [User does not exist], no request that names [owner] passes
    [is_valid], and [create] itself raises [NotesUser.DoesNotExist] before
    it writes.  When [owner] resolves (and the slug drawn for the note is
    new), [validate_user_slug] accepts it and [create] adds exactly one
    note to the database: its content is [content] as given, its
    [created_by_user] and [last_modified_by_user] are both [owner]; the
    ledger is the one before the call and no entry of it refers to the new
    note. *)
Theorem create_note_spec (env : Env) (db : DB) (owner content : string) :
  (¬ user_exists db owner →
     NoteSerializer.validate_user_slug db owner
       = Raise (ValidationError [detail "User does not exist"])
     ∧ (∀ request data,
          NoteSerializer.is_valid db request = Valid data →
          NoteSerializer.user_slug data ≠ owner)
     ∧ NoteSerializer.create env db (NoteSerializer.mk owner content)
       = Raise (DoesNotExist "NotesUser"))
  ∧ (users_ok db → history_ok db → user_exists db owner →
     fresh_note_slug env db →
     NoteSerializer.validate_user_slug db owner = Ok owner
     ∧ ∃ note,
         let db' := set_notes (notes db ++ [note]) db in
         NoteSerializer.create env db (NoteSerializer.mk owner content)
         = Ok (note, db')
         ∧ Note.content note = content
         ∧ Note.created_by_user note = owner
         ∧ Note.last_modified_by_user note = owner
         ∧ Note.slug note = String.substring 0 9 (uuid4_hex env)
         ∧ Note.created_at note = now env
         ∧ history db' = history db
         ∧ Forall (fun h => NoteHistory.note h ≠ Note.pk note) (history db')).
Proof.
  split.
  - intros Hno.
    assert (Hnone : NotesUser_filter_userslug db owner = []).
    { destruct (NotesUser_filter_userslug db owner) as [|u l] eqn:E; [done|].
      destruct Hno. apply exists_user. by rewrite E. }
    split; [|split].
    + unfold NoteSerializer.validate_user_slug. by rewrite Hnone.
    + intros request data Hvalid Hslug. unfold NoteSerializer.is_valid in Hvalid.
      destruct (fields.required_field fields.SlugField _) as [v|e]; simpl in Hvalid;
        [|by destruct e, (fields.required_field (fields.CharField false) _)].
      unfold NoteSerializer.validate_user_slug in Hvalid.
      destruct (exists_ (NotesUser_filter_userslug db v)) eqn:E; simpl in Hvalid;
        [|by destruct (fields.required_field (fields.CharField false) _)].
      destruct (fields.required_field (fields.CharField false) _); [|done].
      injection Hvalid as <-. simpl in Hslug. subst v.
      by rewrite Hnone in E.
    + unfold NoteSerializer.create. simpl. by rewrite Hnone.
  - intros Husers Hhist Hex Hfresh.
    assert (Hhook : NoteSerializer.validate_user_slug db owner = Ok owner).
    { unfold NoteSerializer.validate_user_slug.
      apply exists_user in Hex. rewrite Hex. reflexivity. }
    split; [exact Hhook|].
    destruct Hex as (u & Hu & Hpk).
    pose proof (get_user db u Husers Hu) as Hget. rewrite Hpk in Hget.
    assert (Hcreate : NoteSerializer.create env db (NoteSerializer.mk owner content)
                      = let note := Note.mk (Note.next_pk (notes db))
                                      (String.substring 0 9 (uuid4_hex env))
                                      owner owner content (now env) in
                        Ok (note, set_notes (notes db ++ [note]) db)).
    { unfold NoteSerializer.create. simpl. rewrite Hget. simpl.
      rewrite Note_objects_create_fresh by assumption. simpl. rewrite Hpk. done. }
    eexists. simpl. split; [exact Hcreate|].
    repeat split.
    unfold history_ok in Hhist. rewrite Forall_forall in Hhist |- *.
    intros h Hh Heq. simpl in Heq.
    apply Hhist, list_elem_of_fmap in Hh as (n & Hn & Hin).
    apply next_pk_above in Hin. lia.
Qed.

Lemma create_note_spec_witness :
  users_ok Scenario.db ∧ history_ok Scenario.db
  ∧ user_exists Scenario.db "0a1b2c3d4e"
  ∧ fresh_note_slug Scenario.env Scenario.db
  ∧ (∃ note,
        NoteSerializer.create Scenario.env Scenario.db
          (NoteSerializer.mk "0a1b2c3d4e" "  hello  ")
        = Ok (note, set_notes (notes Scenario.db ++ [note]) Scenario.db)
        ∧ Note.content note = "  hello  "
        ∧ Note.created_by_user note = "0a1b2c3d4e"
        ∧ Note.last_modified_by_user note = "0a1b2c3d4e")
  ∧ ¬ user_exists Scenario.db "nobody000"
  ∧ NoteSerializer.validate_user_slug Scenario.db "nobody000"
    = Raise (ValidationError [detail "User does not exist"])
  ∧ NoteSerializer.create Scenario.env Scenario.db
      (NoteSerializer.mk "nobody000" "hello")
    = Raise (DoesNotExist "NotesUser").
Proof.
  assert (Husers : users_ok Scenario.db) by (unfold users_ok; compute_done).
  assert (Hhist : history_ok Scenario.db) by (unfold history_ok; compute_done).
  assert (Hex : user_exists Scenario.db "0a1b2c3d4e")
    by (apply exists_user; reflexivity).
  assert (Hfresh : fresh_note_slug Scenario.env Scenario.db).
  { split; [compute_done|]. intros H. apply exists_note in H. discriminate. }
  repeat (split; [assumption|]).
  destruct (create_note_spec Scenario.env Scenario.db "0a1b2c3d4e" "  hello  ")
    as [_ Hcreate].
  destruct (Hcreate Husers Hhist Hex Hfresh)
    as (_ & note & Hc & H1 & H2 & H3 & _).
  split; [exists note; auto|].
  assert (Hno : ¬ user_exists Scenario.db "nobody000")
    by (apply first_user_None; reflexivity).
  split; [exact Hno|].
  destruct (create_note_spec Scenario.env Scenario.db "nobody000" "hello")
    as [Hfail _].
  destruct (Hfail Hno) as (Hhook & _ & Hraise).
  split; [exact Hhook|exact Hraise].
Defined.

(** ** register *)

Lemma exists_email (db : DB) (address : string) :
  exists_ (NotesUser_filter_email db address) = true ↔ email_registered db address.
Proof.
  unfold email_registered, NotesUser_filter_email. split.
  - intros H. destruct (List.filter _ _) as [|u l] eqn:E; [done|].
    exists u. apply (filter_eqb_elem_of NotesUser.email). rewrite E. left.
  - intros (u & Hu & Heq).
    pose proof (proj2 (filter_eqb_elem_of NotesUser.email address (users db) u)
                  (conj Hu Heq)) as Hin.
    by destruct (List.filter _ _); [inversion Hin|].
Qed.

Lemma NotesUser_save_fresh (env : Env) (self : NotesUser.t) (rows : list NotesUser.t) :
  let user := NotesUser.set_userslug (String.substring 0 10 (uuid4_hex env)) self in
  NotesUser.userslug self = "" →
  (∀ r, r ∈ rows → NotesUser.userslug r ≠ NotesUser.userslug user) →
  (∀ r, r ∈ rows → NotesUser.email r ≠ NotesUser.email self) →
  (∀ r, r ∈ rows → NotesUser.username r ≠ NotesUser.username self) →
  NotesUser.save env self rows = Ok (user, rows ++ [user]).
Proof.
  intros user Hblank Hpk Hemail Hname. unfold NotesUser.save.
  rewrite Hblank. simpl. unfold NotesUser.generate_random_slug. fold user.
  rewrite !unique_violation_false.
  - destruct (existsb _ _) eqn:E; [|done].
    apply existsb_exists in E as (x & Hx & Heq).
    apply list_elem_of_In in Hx. apply String.eqb_eq in Heq. destruct (Hpk x Hx Heq).
  - intros r Hr. apply list_elem_of_filter in Hr as [_ Hr]. by apply Hname.
  - intros r Hr. apply list_elem_of_filter in Hr as [_ Hr]. by apply Hemail.
Qed.

(** A request whose address is taken is refused, whatever else it holds. *)
Lemma register_taken (dj : Django) (env : Env) (db : DB) (request : gmap string JSON)
    (address : string) :
  fields.required_field (UserRegistrationSerializer.EmailField dj)
    (request !! "email") = Ok address →
  email_registered db address →
  ∃ errors,
    UserRegistrationAPIView.create dj env db request
    = (ErrorResponse 400 "Unable to register a User successfully. !"
         (("email", [detail "Email must be unique"]) :: errors), db).
Proof.
  intros Hfield Htaken. apply exists_email in Htaken.
  unfold UserRegistrationAPIView.create, UserRegistrationSerializer.is_valid.
  rewrite Hfield. simpl. unfold UserRegistrationSerializer.validate_email.
  rewrite Htaken. simpl. eauto.
Qed.

(** C5: a second signup with the same address is not always refused as a
    duplicate.  [validate_email] looks the address up as it was given,
    while the manager stores it with the domain in lower case.  With
    [carol@EXAMPLE.com] the first [POST /signup/] answers 201 and stores one
    user, under [carol@example.com]; the second, with the same request,
    passes [validate_email], breaks a unique constraint of the table and
    ends in a server error with [IntegrityError], not in a 400 with [Email
    must be unique].  No second user is stored.  The address as it is
    stored, [carol@example.com], is refused with that 400. *)
Theorem register_twice_integrity_error :
  let request : gmap string JSON :=
    {[ "email" := JString "carol@EXAMPLE.com"; "password" := JString "pw" ]} in
  let stored : gmap string JSON :=
    {[ "email" := JString "carol@example.com"; "password" := JString "pw" ]} in
  let user :=
    NotesUser.mk "c0ffee00c0" "carol@EXAMPLE.com" "carol@example.com" "pbkdf2$pw"
      "" "" in
  let db := mkDB [user] [] [] [] in
  UserRegistrationAPIView.create Cases.django Scenario.env (mkDB [] [] [] []) request
  = (Response 201 "User created successfully. :)" user, db)
  ∧ UserRegistrationSerializer.validate_email db "carol@EXAMPLE.com"
    = Ok "carol@EXAMPLE.com"
  ∧ (∃ column,
       UserRegistrationAPIView.create Cases.django Cases.later db request
       = (ServerError (IntegrityError column), db))
  ∧ UserRegistrationAPIView.create Cases.django Cases.later db stored
    = (ErrorResponse 400 "Unable to register a User successfully. !"
         [("email", [detail "Email must be unique"])], db).
Proof.
  intros request stored user db.
  split; [vm_compute; reflexivity|]. split; [vm_compute; reflexivity|].
  split; [|vm_compute; reflexivity].
  exists "email". vm_compute. reflexivity.
Qed.

(** ** The constraints are kept

    The empty database meets the constraints the theorems assume, and the
    operations that write to the [Note] and [NoteHistory] tables keep
    them. *)

Lemma empty_ok :
  let db := mkDB [] [] [] [] in
  users_ok db ∧ notes_ok db ∧ history_ok db.
Proof.
  unfold users_ok, notes_ok, history_ok. simpl.
  repeat split; constructor.
Qed.

Lemma create_keeps_ok (env : Env) (db db' : DB) (data : NoteSerializer.validated_data)
    (note : Note.t) :
  notes_ok db → history_ok db → fresh_note_slug env db →
  NoteSerializer.create env db data = Ok (note, db') →
  notes_ok db' ∧ history_ok db' ∧ users db' = users db.
Proof.
  intros (Hpks & Hslugs & Hne) Hhist Hfresh. unfold NoteSerializer.create.
  destruct (get "NotesUser" _) as [user|e]; simpl; [|discriminate].
  rewrite Note_objects_create_fresh by assumption. simpl. intros [= <- <-].
  destruct Hfresh as [Hnonempty Hnew]. unfold notes_ok, history_ok. simpl.
  rewrite !fmap_app. simpl. repeat split.
  - apply NoDup_app. split; [done|]. split; [|apply NoDup_singleton].
    intros k Hk Hk'. apply list_elem_of_singleton in Hk'. subst k.
    apply list_elem_of_fmap in Hk as (r & Hr & Hin).
    apply next_pk_above in Hin. lia.
  - apply NoDup_app. split; [done|]. split; [|apply NoDup_singleton].
    intros v Hv Hv'. apply list_elem_of_singleton in Hv'. subst v.
    apply list_elem_of_fmap in Hv as (r & Hr & Hin). apply Hnew. exists r. done.
  - apply Forall_app. split; [done|]. constructor; [exact Hnonempty|constructor].
  - eapply Forall_impl; [exact Hhist|]. intros h Hh. simpl in Hh.
    apply elem_of_app. by left.
Qed.

Lemma update_keeps_history_ok (env : Env) (db db' : DB) (instance instance' : Note.t)
    (data : NoteViewSerializer.validated_data) :
  notes_ok db → history_ok db → instance ∈ notes db →
  NoteViewSerializer.update env db instance data = Ok (instance', db') →
  history_ok db'.
Proof.
  intros Hok Hhist Hin Hupd.
  pose proof (update_succeeds_inv _ _ _ _ _ _ Hupd) as Hex.
  rewrite (update_resolved env db instance data Hok Hin Hex) in Hupd.
  injection Hupd as <- <-. destruct Hok as (Hpks & _ & _).
  unfold history_ok. simpl.
  rewrite (write_back_column Note.pk _ instance) by done.
  apply Forall_app. split; [exact Hhist|].
  constructor; [|constructor]. simpl. apply list_elem_of_fmap. eauto.
Qed.

(** ** share *)

Lemma foldr_max_above (ks : list nat) (k : nat) :
  k ∈ ks → k < S (foldr Nat.max 0 ks).
Proof.
  induction ks as [|x ks IH]; intros Hk.
  - inversion Hk.
  - cbn [foldr].
    pose proof (Nat.le_max_l x (foldr Nat.max 0 ks)).
    pose proof (Nat.le_max_r x (foldr Nat.max 0 ks)).
    apply elem_of_cons in Hk as [->|Hk]; [lia|].
    specialize (IH Hk). lia.
Qed.

Lemma find_app_skip {A} (p : A -> bool) (l1 l2 : list A) :
  (∀ r, r ∈ l1 → p r = false) → find p (l1 ++ l2) = find p l2.
Proof.
  induction l1 as [|x l1 IH]; intros H; simpl; [done|].
  rewrite (H x) by left. apply IH. intros r Hr. apply H. by right.
Qed.

Lemma with_recipients_empty (instance r : SharedNote.t) :
  with_recipients instance ∅ r = r.
Proof.
  unfold with_recipients. destruct (Nat.eqb _ _); [|done].
  destruct r. simpl. f_equal. apply (left_id_L ∅ (∪)).
Qed.

Lemma with_recipients_union (instance r : SharedNote.t) (s1 s2 : gset string) :
  with_recipients instance s1 (with_recipients instance s2 r)
  = with_recipients instance (s1 ∪ s2) r.
Proof.
  unfold with_recipients. destruct (Nat.eqb (SharedNote.pk r) _) eqn:E; simpl.
  - rewrite E. f_equal. apply (assoc_L (∪)).
  - rewrite E. done.
Qed.

Lemma add_recipients_fold (db : DB) (instance : SharedNote.t) (slugs : list string) :
  ∀ rows,
  ∃ added : gset string,
    foldl (SharedNoteSerializer.add_recipient db instance) rows slugs
    = with_recipients instance added <$> rows
    ∧ ∀ s, s ∈ added ↔ s ∈ slugs ∧ user_exists db s.
Proof.
  induction slugs as [|slug slugs IH]; intros rows; simpl.
  - exists ∅. split.
    + rewrite <- (list_fmap_id rows) at 1. apply list_fmap_ext.
      intros i r _. by rewrite with_recipients_empty.
    + intros s. split; [intros H; inversion H|]. intros [H _]. inversion H.
  - destruct (IH (SharedNoteSerializer.add_recipient db instance rows slug))
      as (added & Hfold & Hadded).
    rewrite Hfold. unfold SharedNoteSerializer.add_recipient.
    destruct (first (NotesUser_filter_userslug db slug)) as [user|] eqn:Hu.
    + apply first_user_Some in Hu as [Hin Hslug].
      exists (added ∪ {[slug]}). split.
      * unfold SharedNote.shared_with_add. rewrite <- list_fmap_compose.
        apply list_fmap_ext. intros i r _. simpl.
        rewrite <- with_recipients_union. f_equal.
        unfold with_recipients. rewrite Hslug. done.
      * intros s. rewrite elem_of_union, Hadded, elem_of_singleton, elem_of_cons.
        split; [intros [[? ?]| ->]|intros [[->|?] ?]]; eauto.
        split; [by left|]. exists user. done.
    + apply first_user_None in Hu.
      exists added. split; [done|].
      intros s. rewrite Hadded, elem_of_cons.
      split; [intros [? ?]; eauto|intros [[->|?] ?]; [contradiction|eauto]].
Qed.

(** What [create] computes when the note and the sharer resolve. *)
Lemma share_resolved (env : Env) (db : DB) (data : SharedNoteSerializer.validated_data)
    (n : Note.t) (u : NotesUser.t) :
  notes_ok db → users_ok db →
  n ∈ notes db → Note.slug n = SharedNoteSerializer.note data →
  u ∈ users db → NotesUser.userslug u = SharedNoteSerializer.shared_by data →
  ∃ grant,
    SharedNoteSerializer.create env db data
    = Ok (grant, set_shared (shared db ++ [grant]) db)
    ∧ SharedNote.note grant = Note.pk n
    ∧ SharedNote.shared_by grant = NotesUser.userslug u
    ∧ ∀ s, s ∈ SharedNote.shared_with grant
           ↔ s ∈ SharedNoteSerializer.shared_with data ∧ user_exists db s.
Proof.
  intros Hnotes Husers Hn Hslug Hu Hpk.
  unfold SharedNoteSerializer.create.
  rewrite <- Hslug, (get_note db n Hnotes Hn). simpl.
  rewrite <- Hpk, (get_user db u Husers Hu). simpl.
  set (instance := SharedNote.mk (SharedNote.next_pk (shared db)) (Note.pk n)
                     (NotesUser.userslug u) ∅ (now env)).
  destruct (add_recipients_fold db instance (SharedNoteSerializer.shared_with data)
              (shared db ++ [instance])) as (added & Hfold & Hadded).
  rewrite Hfold.
  assert (Hold : ∀ r, r ∈ shared db →
                 Nat.eqb (SharedNote.pk r) (SharedNote.pk instance) = false).
  { intros r Hr. apply Nat.eqb_neq. simpl. unfold SharedNote.next_pk.
    assert (SharedNote.pk r ∈ SharedNote.pk <$> shared db)
      by (apply list_elem_of_fmap; eauto).
    pose proof (foldr_max_above _ _ H). lia. }
  set (grant := SharedNote.mk (SharedNote.pk instance) (Note.pk n)
                  (NotesUser.userslug u) (added ∪ ∅) (now env)).
  assert (Hrows : SharedNote.save instance
                    (with_recipients instance added <$> (shared db ++ [instance]))
                  = shared db ++ [grant]).
  { unfold SharedNote.save. rewrite <- list_fmap_compose, fmap_app. f_equal.
    - rewrite <- (list_fmap_id (shared db)) at 2. apply list_fmap_ext.
      intros i r Hr. apply list_elem_of_lookup_2, Hold in Hr.
      unfold compose, with_recipients, id. cbv beta. rewrite !Hr. done.
    - simpl. unfold with_recipients. rewrite Nat.eqb_refl. simpl.
      rewrite Nat.eqb_refl. done. }
  rewrite Hrows.
  assert (Hstored : SharedNote.stored instance (shared db ++ [grant]) = grant).
  { unfold SharedNote.stored. rewrite find_app_skip by exact Hold.
    simpl. rewrite Nat.eqb_refl. done. }
  rewrite Hstored. exists grant.
  split; [done|]. split; [done|]. split; [done|].
  intros s. rewrite <- Hadded. unfold grant. simpl.
  rewrite (right_id_L ∅ (∪)). done.
Qed.

(** C6: when the note and the sharer resolve, [create] succeeds for every
    list of recipient slugs, so a slug that resolves to no user raises
    nothing; the grant it stores and returns has as recipients exactly the
    slugs of the list that resolve to a user.  For a list [valid; bogus] of
    which only [valid] resolves, the recipients are the one user [valid]. *)
Theorem share_skips_unresolved (env : Env) (db : DB)
    (data : SharedNoteSerializer.validated_data) (n : Note.t) (u : NotesUser.t) :
  notes_ok db → users_ok db →
  n ∈ notes db → Note.slug n = SharedNoteSerializer.note data →
  u ∈ users db → NotesUser.userslug u = SharedNoteSerializer.shared_by data →
  ∃ grant db',
    SharedNoteSerializer.create env db data = Ok (grant, db')
    ∧ grant ∈ shared db'
    ∧ (∀ s, s ∈ SharedNote.shared_with grant
            ↔ s ∈ SharedNoteSerializer.shared_with data ∧ user_exists db s)
    ∧ (∀ valid bogus,
         SharedNoteSerializer.shared_with data = [valid; bogus] →
         user_exists db valid → ¬ user_exists db bogus →
         SharedNote.shared_with grant = {[ valid ]}).
Proof.
  intros Hnotes Husers Hn Hslug Hu Hpk.
  destruct (share_resolved env db data n u Hnotes Husers Hn Hslug Hu Hpk)
    as (grant & Hcreate & _ & _ & Hrecipients).
  exists grant, (set_shared (shared db ++ [grant]) db).
  split; [exact Hcreate|].
  split; [simpl; apply elem_of_app; right; left|]. split; [exact Hrecipients|].
  intros valid bogus Hlist Hvalid Hbogus.
  apply set_eq. intros s. rewrite Hrecipients, Hlist, elem_of_singleton.
  split.
  - intros [Hs Hex]. apply elem_of_cons in Hs as [->|Hs]; [done|].
    apply list_elem_of_singleton in Hs as ->. contradiction.
  - intros ->. split; [left|done].
Qed.

Lemma share_skips_unresolved_witness :
  notes_ok Scenario.db ∧ users_ok Scenario.db
  ∧ Scenario.hello ∈ notes Scenario.db ∧ Scenario.alice ∈ users Scenario.db
  ∧ user_exists Scenario.db "5f6a7b8c9d" ∧ ¬ user_exists Scenario.db "bogusSlug"
  ∧ ∃ grant db',
      SharedNoteSerializer.create Scenario.env Scenario.db
        (SharedNoteSerializer.mk "9f8e7d6c5" "0a1b2c3d4e" ["5f6a7b8c9d"; "bogusSlug"])
      = Ok (grant, db')
      ∧ grant ∈ shared db'
      ∧ SharedNote.shared_with grant = {[ "5f6a7b8c9d" ]}.
Proof.
  assert (Hnotes : notes_ok Scenario.db) by (unfold notes_ok; compute_done).
  assert (Husers : users_ok Scenario.db) by (unfold users_ok; compute_done).
  assert (Hn : Scenario.hello ∈ notes Scenario.db) by compute_done.
  assert (Hu : Scenario.alice ∈ users Scenario.db) by compute_done.
  assert (Hvalid : user_exists Scenario.db "5f6a7b8c9d")
    by (apply exists_user; reflexivity).
  assert (Hbogus : ¬ user_exists Scenario.db "bogusSlug")
    by (apply first_user_None; reflexivity).
  repeat (split; [assumption|]).
  destruct (share_skips_unresolved Scenario.env Scenario.db
              (SharedNoteSerializer.mk "9f8e7d6c5" "0a1b2c3d4e"
                 ["5f6a7b8c9d"; "bogusSlug"])
              Scenario.hello Scenario.alice Hnotes Husers Hn eq_refl Hu eq_refl)
    as (grant & db' & Hcreate & Hin & _ & Hpair).
  exists grant, db'. repeat split; [exact Hcreate|exact Hin|].
  exact (Hpair "5f6a7b8c9d" "bogusSlug" eq_refl Hvalid Hbogus).
Defined.

(** C7 (the code does not keep it): a share operation that completes can
    leave a grant without recipients.  On the database [Scenario.db],
    sharing the note of Alice with a list whose only slug resolves to no
    user, or with the empty list, is answered 201 and stores a grant whose
    [shared_with] is empty. *)
Theorem share_empty_grant :
  (∃ grant db',
     SharedNoteAPIView.create Scenario.env Scenario.db
       {[ "note" := JString "9f8e7d6c5"; "shared_by" := JString "0a1b2c3d4e";
          "shared_with" := JList ["bogusSlug"] ]}
     = (Response 201 "Note Shared successfull. :)"
          (SharedNoteSerializer.mk "9f8e7d6c5" "0a1b2c3d4e" ["bogusSlug"]), db')
     ∧ shared db' = [grant] ∧ SharedNote.shared_with grant = ∅)
  ∧ (∃ grant db',
       SharedNoteAPIView.create Scenario.env Scenario.db
         {[ "note" := JString "9f8e7d6c5"; "shared_by" := JString "0a1b2c3d4e";
            "shared_with" := JList [] ]}
       = (Response 201 "Note Shared successfull. :)"
            (SharedNoteSerializer.mk "9f8e7d6c5" "0a1b2c3d4e" []), db')
       ∧ shared db' = [grant] ∧ SharedNote.shared_with grant = ∅).
Proof.
  split; eexists _, _; (split; [vm_compute; reflexivity|]); split; reflexivity.
Qed.

(** When the note or the sharer does not resolve, [create] raises the
    [DoesNotExist] of [objects.get] before it writes anything. *)
Lemma share_unresolved_raises (env : Env) (db : DB)
    (data : SharedNoteSerializer.validated_data) :
  (¬ note_exists db (SharedNoteSerializer.note data) →
   SharedNoteSerializer.create env db data = Raise (DoesNotExist "Note"))
  ∧ (∀ n, Note_filter_slug db (SharedNoteSerializer.note data) = [n] →
       ¬ user_exists db (SharedNoteSerializer.shared_by data) →
       SharedNoteSerializer.create env db data = Raise (DoesNotExist "NotesUser")).
Proof.
  unfold SharedNoteSerializer.create. split.
  - intros Hno.
    destruct (Note_filter_slug db (SharedNoteSerializer.note data)) eqn:E; [done|].
    exfalso. apply Hno, exists_note. rewrite E. done.
  - intros n -> Hno. simpl. apply first_user_None in Hno. unfold first in Hno.
    apply head_None in Hno. rewrite Hno. done.
Qed.

(** The handler of [POST /notes/share/] lets that exception through: the
    caller gets a server error, the database is untouched. *)
Lemma share_unresolved_note_response (env : Env) (db : DB) (request : gmap string JSON)
    (data : SharedNoteSerializer.validated_data) :
  SharedNoteSerializer.is_valid request = Valid data →
  ¬ note_exists db (SharedNoteSerializer.note data) →
  SharedNoteAPIView.create env db request = (ServerError (DoesNotExist "Note"), db).
Proof.
  intros Hvalid Hno. unfold SharedNoteAPIView.create. rewrite Hvalid.
  rewrite (proj1 (share_unresolved_raises env db data) Hno). reflexivity.
Qed.

(** C9 (the code does not keep its second half): a share request whose note
    slug, or whose sharer slug, resolves to nothing creates no grant, but
    what the caller gets is not a response with a kind and a message: the
    [DoesNotExist] raised by [objects.get] leaves the handler and the
    framework's exception handler, and surfaces as a server error. *)
Theorem share_unresolved_is_server_error :
  SharedNoteAPIView.create Scenario.env Scenario.db
    {[ "note" := JString "nonesuch1"; "shared_by" := JString "0a1b2c3d4e";
       "shared_with" := JList ["5f6a7b8c9d"] ]}
  = (ServerError (DoesNotExist "Note"), Scenario.db)
  ∧ SharedNoteAPIView.create Scenario.env Scenario.db
      {[ "note" := JString "9f8e7d6c5"; "shared_by" := JString "nobody000";
         "shared_with" := JList ["5f6a7b8c9d"] ]}
    = (ServerError (DoesNotExist "NotesUser"), Scenario.db).
Proof.
  split; vm_compute; reflexivity.
Qed.

(** ** Blank content *)

Lemma CharField_not_blank (data : option JSON) (value : string) :
  fields.required_field (fields.CharField false) data = Ok value → value ≠ "".
Proof.
  unfold fields.required_field, fields.CharField, fields.run_validation.
  destruct data as [[s|l]|]; try discriminate.
  destruct (String.eqb s "" || String.eqb (fields.strip s) "") eqn:E; [discriminate|].
  apply orb_false_elim in E as [_ E]. apply String.eqb_neq in E.
  unfold fields.run_validators. destruct (concat _); [|discriminate].
  intros [= <-]. exact E.
Qed.

Lemma CharField_blank (allow : gmap string JSON) :
  allow !! "content" = Some (JString "") →
  fields.required_field (fields.CharField false) (allow !! "content")
  = Raise (ValidationError [blank]).
Proof. intros ->. reflexivity. Qed.

Lemma Note_save_keeps (env : Env) (self self' : Note.t) (rows rows' : list Note.t) :
  Note.save env self rows = Ok (self', rows') →
  Note.content self' = Note.content self
  ∧ Note.created_by_user self' = Note.created_by_user self
  ∧ Note.last_modified_by_user self' = Note.last_modified_by_user self.
Proof.
  unfold Note.save.
  destruct (String.eqb (Note.slug self) ""), (existsb _ rows);
    repeat match goal with
           | |- context [if ?c then _ else _] => destruct c
           end;
    intros [= <- <-]; done.
Qed.

Lemma Note_objects_create_appends (env : Env) (created_by content modified_by : string)
    (rows rows' : list Note.t) (note : Note.t) :
  Note.objects_create env created_by content modified_by rows = Ok (note, rows') →
  rows' = rows ++ [note].
Proof.
  unfold Note.objects_create, Note.save. simpl.
  assert (existsb (fun r => Nat.eqb (Note.pk r) (Note.next_pk rows)) rows = false) as ->.
  { destruct (existsb _ _) eqn:E; [|done].
    apply existsb_exists in E as (x & Hx & Heq).
    apply list_elem_of_In, next_pk_above in Hx. apply Nat.eqb_eq in Heq. lia. }
  destruct (unique_violation _ _ _); [discriminate|]. intros [= <- <-]. done.
Qed.

(** C10: a request whose [content] is the empty string is refused with the
    error [blank] under [content]: by the handler of [POST /notes/create/]
    always, by the handler of [PUT /notes/<slug>/] whenever the slug names a
    stored note; either way (and also when the slug names none) the database
    is returned as it was.  Conversely, whenever one of the two handlers
    answers with a success, the content of the note it stored is not
    empty. *)
Theorem blank_content_rejected (env : Env) (db : DB) (request : gmap string JSON) :
  request !! "content" = Some (JString "") →
  (∃ errors,
     NoteCreateAPIView.create env db request
     = (ErrorResponse 400 "Failed to create Note !" errors, db)
     ∧ ("content", [blank]) ∈ errors)
  ∧ (∀ slug instance,
       NoteDetailAPIView.get_object db slug = Ok instance →
       ∃ errors,
         NoteDetailAPIView.update env db slug request
         = (ErrorResponse 400 "Failed to update note. !" errors, db)
         ∧ ("content", [blank]) ∈ errors)
  ∧ (∀ slug, (NoteDetailAPIView.update env db slug request).2 = db)
  ∧ (∀ request' status message data db',
       NoteCreateAPIView.create env db request' = (Response status message data, db') →
       ∃ note, notes db' = notes db ++ [note] ∧ Note.content note ≠ "")
  ∧ (∀ slug request' status message instance' db',
       NoteDetailAPIView.update env db slug request'
       = (Response status message instance', db') →
       Note.content instance' ≠ "").
Proof.
  intros Hblank.
  pose proof (CharField_blank request Hblank) as Hfield.
  assert (Hcreate : ∃ errors,
            NoteCreateAPIView.create env db request
            = (ErrorResponse 400 "Failed to create Note !" errors, db)
            ∧ ("content", [blank]) ∈ errors).
  { unfold NoteCreateAPIView.create, NoteSerializer.is_valid. rewrite Hfield.
    destruct (let* v := _ in _) as [u|e]; simpl; eexists; (split; [reflexivity|]).
    - left.
    - destruct e; simpl; try left. right. left. }
  assert (Hupdate : ∀ slug instance,
            NoteDetailAPIView.get_object db slug = Ok instance →
            ∃ errors,
              NoteDetailAPIView.update env db slug request
              = (ErrorResponse 400 "Failed to update note. !" errors, db)
              ∧ ("content", [blank]) ∈ errors).
  { intros slug instance Hget.
    unfold NoteDetailAPIView.update, NoteViewSerializer.is_valid.
    rewrite Hget, Hfield. simpl.
    destruct (fields.required_field fields.SlugField (request !! "slug")) as [s|e];
      simpl; eexists; (split; [reflexivity|]).
    - left.
    - destruct e; simpl; try left. right. left. }
  split; [exact Hcreate|]. split; [exact Hupdate|]. split; [|split].
  - intros slug. destruct (NoteDetailAPIView.get_object db slug) as [instance|e] eqn:Hget.
    + destruct (Hupdate slug instance Hget) as (errors & -> & _). reflexivity.
    + unfold NoteDetailAPIView.update. rewrite Hget. reflexivity.
  - intros request' status message data db'.
    unfold NoteCreateAPIView.create, NoteSerializer.is_valid.
    destruct (let* v := _ in _) as [u|e]; simpl.
    + destruct (fields.required_field (fields.CharField false) (request' !! "content"))
        as [c|e] eqn:Hc; simpl; [|discriminate].
      apply CharField_not_blank in Hc.
      unfold NoteSerializer.create. simpl.
      destruct (get "NotesUser" _) as [user|e]; simpl;
        [|destruct e; discriminate].
      destruct (Note.objects_create _ _ _ _ _) as [[note rows]|e] eqn:Hnote; simpl;
        [|destruct e; discriminate].
      intros [= _ _ _ <-]. exists note. simpl.
      split; [by eapply Note_objects_create_appends|].
      unfold Note.objects_create in Hnote.
      apply Note_save_keeps in Hnote as [-> _]. exact Hc.
    + destruct (fields.required_field _ _); simpl; discriminate.
  - intros slug request' status message instance' db'.
    unfold NoteDetailAPIView.update.
    destruct (NoteDetailAPIView.get_object db slug) as [instance|e]; simpl;
      [|destruct e; discriminate].
    unfold NoteViewSerializer.is_valid.
    destruct (fields.required_field fields.SlugField (request' !! "slug")) as [s|e];
      [|destruct (fields.required_field (fields.CharField false) _),
                 (fields.required_field fields.SlugField _); simpl; discriminate].
    destruct (fields.required_field (fields.CharField false) (request' !! "content"))
      as [c|e] eqn:Hc;
      [|destruct (fields.required_field fields.SlugField _); simpl; discriminate].
    destruct (fields.required_field fields.SlugField
                (request' !! "last_modified_by_user")) as [u|e];
      [|simpl; discriminate].
    apply CharField_not_blank in Hc. simpl.
    unfold NoteViewSerializer.update. simpl.
    destruct (first _) as [user|]; [|discriminate].
    destruct (Note.save _ _ _) as [[saved rows]|e] eqn:Hsave; simpl;
      [|destruct e; discriminate].
    intros [= _ _ <- _]. apply Note_save_keeps in Hsave as [-> _]. exact Hc.
Qed.

Lemma blank_content_rejected_witness :
  let request : gmap string JSON :=
    {[ "slug" := JString "9f8e7d6c5"; "user_slug" := JString "0a1b2c3d4e";
       "content" := JString ""; "last_modified_by_user" := JString "0a1b2c3d4e" ]} in
  request !! "content" = Some (JString "")
  ∧ NoteCreateAPIView.create Scenario.env Scenario.db request
    = (ErrorResponse 400 "Failed to create Note !" [("content", [blank])], Scenario.db)
  ∧ NoteDetailAPIView.update Scenario.env Scenario.db "9f8e7d6c5" request
    = (ErrorResponse 400 "Failed to update note. !" [("content", [blank])], Scenario.db).
Proof.
  intros request.
  assert (Hblank : request !! "content" = Some (JString "")) by reflexivity.
  split; [exact Hblank|].
  destruct (blank_content_rejected Scenario.env Scenario.db request Hblank)
    as ((errors & Hcreate & _) & Hupdate & _).
  destruct (Hupdate "9f8e7d6c5" Scenario.hello eq_refl) as (errors' & Hupd & _).
  split.
  - rewrite Hcreate. vm_compute in Hcreate. injection Hcreate as <-. reflexivity.
  - rewrite Hupd. vm_compute in Hupd. injection Hupd as <-. reflexivity.
Defined.

(** ** history *)

(** C1 (the code does not keep it): the handler of
    [GET /notes/version-history/<slug>/] answers the same for every slug.
    After one edit of the note of Alice and one edit of the note of Bob, the
    history asked for the note of Alice has two entries, the second of which
    belongs to the note of Bob. *)
Theorem history_ignores_slug :
  (∀ db slug slug',
     NoteVersionHistoryAPIView.get db slug = NoteVersionHistoryAPIView.get db slug')
  ∧ (NoteVersionHistoryAPIView.get Scenario.edited "9f8e7d6c5").1
    = Response 200 ""
        [NoteHistorySerializer.mk "9f8e7d6c5" "hello" "hello world" "a@x.com"
           "09-03-2024 at 01:45 PM";
         NoteHistorySerializer.mk "1a2b3c4d5" "milk" "milk, eggs" "b@x.com"
           "09-03-2024 at 01:45 PM"].
Proof.
  split; [reflexivity|]. vm_compute. reflexivity.
Qed.

(** * More properties of the application *)

(** ** Creating and reading a note *)

Lemma unique_violation_true {A} (col : A -> string) (v : string) (rows : list A) (r : A) :
  r ∈ rows → col r = v → unique_violation col v rows = true.
Proof.
  intros Hr Hv. unfold unique_violation. apply existsb_exists.
  exists r. split; [by apply list_elem_of_In|]. by apply String.eqb_eq.
Qed.

Lemma unique_violation_false_inv {A} (col : A -> string) (v : string) (rows : list A) :
  unique_violation col v rows = false → ∀ r, r ∈ rows → col r ≠ v.
Proof.
  intros H r Hr Hv. rewrite (unique_violation_true col v rows r Hr Hv) in H.
  discriminate.
Qed.

(** What a successful [Note.objects.create] has done. *)
Lemma Note_objects_create_inv (env : Env) (created_by content modified_by : string)
    (rows rows' : list Note.t) (note : Note.t) :
  Note.objects_create env created_by content modified_by rows = Ok (note, rows') →
  rows' = rows ++ [note]
  ∧ note = Note.mk (Note.next_pk rows) (String.substring 0 9 (uuid4_hex env))
             created_by modified_by content (now env)
  ∧ ∀ r, r ∈ rows → Note.slug r ≠ Note.slug note.
Proof.
  unfold Note.objects_create, Note.save. simpl.
  assert (existsb (fun r => Nat.eqb (Note.pk r) (Note.next_pk rows)) rows = false) as ->.
  { destruct (existsb _ _) eqn:E; [|done].
    apply existsb_exists in E as (x & Hx & Heq).
    apply list_elem_of_In, next_pk_above in Hx. apply Nat.eqb_eq in Heq. lia. }
  destruct (unique_violation _ _ _) eqn:E; [discriminate|]. intros [= <- <-].
  split; [done|]. split; [done|].
  apply (unique_violation_false_inv Note.slug). exact E.
Qed.

(** The answer of [POST /notes/create/] to a valid request, when the slug
    drawn is a new one. *)
Lemma create_view_fresh (env : Env) (db : DB) (request : gmap string JSON)
    (owner content : string) :
  fields.required_field fields.SlugField (request !! "user_slug") = Ok owner →
  fields.required_field (fields.CharField false) (request !! "content") = Ok content →
  users_ok db → user_exists db owner → fresh_note_slug env db →
  NoteCreateAPIView.create env db request
  = (Response 201 "Note created successfully :)" (NoteSerializer.mk owner content),
     set_notes
       (notes db ++
          [Note.mk (Note.next_pk (notes db)) (String.substring 0 9 (uuid4_hex env))
             owner owner content (now env)]) db).
Proof.
  intros Hslug Hcontent Husers Hex Hfresh.
  unfold NoteCreateAPIView.create, NoteSerializer.is_valid.
  rewrite Hslug, Hcontent. simpl. unfold NoteSerializer.validate_user_slug.
  pose proof Hex as Hex'. apply exists_user in Hex'. rewrite Hex'. simpl.
  destruct Hex as (u & Hu & Hpk).
  pose proof (get_user db u Husers Hu) as Hget. rewrite Hpk in Hget.
  unfold NoteSerializer.create. simpl. rewrite Hget. simpl.
  rewrite Note_objects_create_fresh by assumption. simpl. rewrite Hpk. done.
Qed.

(** X1: a note created through [POST /notes/create/] is found by
    [GET /notes/<slug>/] under the slug that was drawn for it (the first
    nine characters of the UUID): the answer is 200 with the stored note,
    whose content is the validated content and whose creator and last
    editor are the owner. *)
Theorem create_then_retrieve (env : Env) (db : DB) (request : gmap string JSON)
    (owner content : string) :
  fields.required_field fields.SlugField (request !! "user_slug") = Ok owner →
  fields.required_field (fields.CharField false) (request !! "content") = Ok content →
  users_ok db → user_exists db owner → fresh_note_slug env db →
  let db' := (NoteCreateAPIView.create env db request).2 in
  ∃ note,
    NoteDetailAPIView.retrieve db' (String.substring 0 9 (uuid4_hex env))
    = (Response 200 "Note found" note, db')
    ∧ note ∈ notes db'
    ∧ Note.content note = content
    ∧ Note.created_by_user note = owner
    ∧ Note.last_modified_by_user note = owner.
Proof.
  intros Hslug Hcontent Husers Hex Hfresh db'. unfold db'.
  rewrite (create_view_fresh env db request owner content) by assumption.
  eexists. split.
  { unfold NoteDetailAPIView.retrieve, NoteDetailAPIView.get_object, Note_filter_slug.
    cbn [snd notes set_notes]. rewrite List.filter_app.
    destruct Hfresh as [_ Hnew].
    assert (List.filter (fun n => String.eqb (Note.slug n)
                           (String.substring 0 9 (uuid4_hex env))) (notes db) = []) as ->.
    { apply filter_eqb_nil. intros r Hr Heq. apply Hnew. exists r. done. }
    simpl. rewrite String.eqb_refl. reflexivity. }
  split; [|done]. simpl. apply elem_of_app. right. left.
Qed.

Lemma create_then_retrieve_witness :
  let request : gmap string JSON :=
    {[ "user_slug" := JString "0a1b2c3d4e"; "content" := JString "  buy stamps " ]} in
  let db' := (NoteCreateAPIView.create Scenario.env Scenario.db request).2 in
  users_ok Scenario.db ∧ user_exists Scenario.db "0a1b2c3d4e"
  ∧ fresh_note_slug Scenario.env Scenario.db
  ∧ ∃ note,
      NoteDetailAPIView.retrieve db' "c0ffee00c"
      = (Response 200 "Note found" note, db')
      ∧ Note.content note = "buy stamps"
      ∧ Note.created_by_user note = "0a1b2c3d4e".
Proof.
  intros request db'.
  assert (Husers : users_ok Scenario.db) by (unfold users_ok; compute_done).
  assert (Hex : user_exists Scenario.db "0a1b2c3d4e")
    by (apply exists_user; reflexivity).
  assert (Hfresh : fresh_note_slug Scenario.env Scenario.db).
  { split; [compute_done|]. intros H. apply exists_note in H. discriminate. }
  repeat (split; [assumption|]).
  destruct (create_then_retrieve Scenario.env Scenario.db request
              "0a1b2c3d4e" "buy stamps" eq_refl eq_refl Husers Hex Hfresh)
    as (note & Hget & _ & Hc & Ho & _).
  exists note. split; [exact Hget|]. split; [exact Hc|exact Ho].
Defined.

(** X2: for a slug that names no stored note, [GET /notes/<slug>/] and
    [PUT /notes/<slug>/] are both answered 404 and write nothing; the PUT
    handler looks the note up before it validates the body, so this holds
    whatever the body is. *)
Theorem unknown_slug_not_found (db : DB) (slug : string) :
  ¬ note_exists db slug →
  NoteDetailAPIView.retrieve db slug = (ExceptionResponse 404 [not_found], db)
  ∧ ∀ env request,
      NoteDetailAPIView.update env db slug request
      = (ExceptionResponse 404 [not_found], db).
Proof.
  intros Hno.
  assert (Hget : NoteDetailAPIView.get_object db slug = Raise Http404).
  { unfold NoteDetailAPIView.get_object.
    destruct (Note_filter_slug db slug) eqn:E; [done|].
    exfalso. apply Hno, exists_note. rewrite E. done. }
  split.
  - unfold NoteDetailAPIView.retrieve. rewrite Hget. reflexivity.
  - intros env request. unfold NoteDetailAPIView.update. rewrite Hget. reflexivity.
Qed.

Lemma unknown_slug_not_found_witness :
  ¬ note_exists Scenario.db "nonesuch1"
  ∧ NoteDetailAPIView.retrieve Scenario.db "nonesuch1"
    = (ExceptionResponse 404 [not_found], Scenario.db)
  ∧ NoteDetailAPIView.update Scenario.env Scenario.db "nonesuch1" ∅
    = (ExceptionResponse 404 [not_found], Scenario.db).
Proof.
  assert (Hno : ¬ note_exists Scenario.db "nonesuch1")
    by (intros H; apply exists_note in H; discriminate).
  split; [exact Hno|].
  destruct (unknown_slug_not_found Scenario.db "nonesuch1" Hno) as [Hget Hput].
  split; [exact Hget|apply Hput].
Defined.

(** X3: [Note.save] draws one slug and does not try again: when the slug
    drawn for a new note is already the slug of a stored note, the insert
    breaks the unique constraint, [POST /notes/create/] ends in a server
    error with [IntegrityError], and no note is stored. *)
Theorem create_slug_collision (env : Env) (db : DB) (request : gmap string JSON)
    (owner content : string) :
  fields.required_field fields.SlugField (request !! "user_slug") = Ok owner →
  fields.required_field (fields.CharField false) (request !! "content") = Ok content →
  users_ok db → user_exists db owner →
  note_exists db (String.substring 0 9 (uuid4_hex env)) →
  NoteCreateAPIView.create env db request = (ServerError (IntegrityError "slug"), db).
Proof.
  intros Hslug Hcontent Husers Hex (n & Hn & Htaken).
  unfold NoteCreateAPIView.create, NoteSerializer.is_valid.
  rewrite Hslug, Hcontent. simpl. unfold NoteSerializer.validate_user_slug.
  pose proof Hex as Hex'. apply exists_user in Hex'. rewrite Hex'. simpl.
  destruct Hex as (u & Hu & Hpk).
  pose proof (get_user db u Husers Hu) as Hget. rewrite Hpk in Hget.
  unfold NoteSerializer.create. simpl. rewrite Hget. simpl.
  unfold Note.objects_create, Note.save. simpl.
  assert (existsb (fun r => Nat.eqb (Note.pk r) (Note.next_pk (notes db))) (notes db)
          = false) as ->.
  { destruct (existsb _ _) eqn:E; [|done].
    apply existsb_exists in E as (x & Hx & Heq).
    apply list_elem_of_In, next_pk_above in Hx. apply Nat.eqb_eq in Heq. lia. }
  unfold Note.generate_random_slug.
  rewrite (unique_violation_true Note.slug _ (notes db) n Hn Htaken). reflexivity.
Qed.

Lemma create_slug_collision_witness :
  let env := mkEnv Scenario.afternoon "9f8e7d6c5b4a39281706f5e4d3c2b1a0" in
  let request : gmap string JSON :=
    {[ "user_slug" := JString "5f6a7b8c9d"; "content" := JString "eggs" ]} in
  users_ok Scenario.db ∧ user_exists Scenario.db "5f6a7b8c9d"
  ∧ note_exists Scenario.db (String.substring 0 9 (uuid4_hex env))
  ∧ NoteCreateAPIView.create env Scenario.db request
    = (ServerError (IntegrityError "slug"), Scenario.db).
Proof.
  intros env request.
  assert (Husers : users_ok Scenario.db) by (unfold users_ok; compute_done).
  assert (Hex : user_exists Scenario.db "5f6a7b8c9d")
    by (apply exists_user; reflexivity).
  assert (Htaken : note_exists Scenario.db (String.substring 0 9 (uuid4_hex env)))
    by (apply exists_note; reflexivity).
  repeat (split; [assumption|]).
  exact (create_slug_collision env Scenario.db request "5f6a7b8c9d" "eggs"
           eq_refl eq_refl Husers Hex Htaken).
Defined.

(** What a successful [NoteSerializer.create] keeps. *)
Lemma NoteSerializer_create_keeps (env : Env) (db db1 : DB)
    (data : NoteSerializer.validated_data) (note : Note.t) :
  notes_ok db → history_ok db → String.substring 0 9 (uuid4_hex env) ≠ "" →
  NoteSerializer.create env db data = Ok (note, db1) →
  notes_ok db1 ∧ history_ok db1
  ∧ users db1 = users db ∧ history db1 = history db ∧ shared db1 = shared db
  ∧ notes db1 = notes db ++ [note].
Proof.
  intros Hok Hhist Hne Hcreate. unfold NoteSerializer.create in Hcreate.
  destruct (get "NotesUser" _) as [user|e]; simpl in Hcreate; [|discriminate].
  destruct (Note.objects_create _ _ _ _ _) as [[n rows]|e] eqn:Hnote;
    simpl in Hcreate; [|discriminate].
  injection Hcreate as <- <-.
  apply Note_objects_create_inv in Hnote as (-> & Hn & Hnew).
  destruct Hok as (Hpks & Hslugs & Hnonempty).
  unfold notes_ok, history_ok. simpl. rewrite !fmap_app. simpl.
  split; [|split; [|done]].
  - split; [|split].
    + apply NoDup_app. split; [done|]. split; [|apply NoDup_singleton].
      intros k Hk Hk'. apply list_elem_of_singleton in Hk'. subst k.
      apply list_elem_of_fmap in Hk as (r & Hr & Hin).
      apply next_pk_above in Hin. rewrite Hn in Hr. simpl in Hr. lia.
    + apply NoDup_app. split; [done|]. split; [|apply NoDup_singleton].
      intros v Hv Hv'. apply list_elem_of_singleton in Hv'. subst v.
      apply list_elem_of_fmap in Hv as (r & Hr & Hin). by apply (Hnew r Hin).
    + apply Forall_app. split; [done|]. constructor; [|constructor].
      rewrite Hn. exact Hne.
  - eapply Forall_impl; [exact Hhist|]. intros h Hh. simpl in Hh.
    apply elem_of_app. by left.
Qed.

(** X4: whatever the request, [POST /notes/create/] keeps the constraints
    of the tables (given that the slug drawn is not the empty string): ids
    and slugs stay unique, no slug is empty, every ledger row still refers
    to a stored note.  It writes to the [Note] table only, and there it
    either writes nothing or appends one note. *)
Theorem create_keeps_constraints (env : Env) (db : DB) (request : gmap string JSON) :
  notes_ok db → history_ok db → String.substring 0 9 (uuid4_hex env) ≠ "" →
  let db' := (NoteCreateAPIView.create env db request).2 in
  notes_ok db' ∧ history_ok db'
  ∧ users db' = users db ∧ history db' = history db ∧ shared db' = shared db
  ∧ (db' = db ∨ ∃ note, notes db' = notes db ++ [note]).
Proof.
  intros Hok Hhist Hne db'. unfold db', NoteCreateAPIView.create.
  assert (Hsame : notes_ok db ∧ history_ok db
                  ∧ users db = users db ∧ history db = history db
                  ∧ shared db = shared db
                  ∧ (db = db ∨ ∃ note, notes db = notes db ++ [note]))
    by (repeat (split; [done|]); by left).
  destruct (NoteSerializer.is_valid db request) as [data|errors]; simpl;
    [|exact Hsame].
  destruct (NoteSerializer.create env db data) as [[note db1]|e] eqn:Hcreate; simpl;
    [|exact Hsame].
  destruct (NoteSerializer_create_keeps _ _ _ _ _ Hok Hhist Hne Hcreate)
    as (Hok1 & Hhist1 & Hu & Hh & Hs & Hn).
  repeat (split; [done|]). right. by exists note.
Qed.

Lemma create_keeps_constraints_witness :
  let request : gmap string JSON :=
    {[ "user_slug" := JString "0a1b2c3d4e"; "content" := JString "buy stamps" ]} in
  let db' := (NoteCreateAPIView.create Scenario.env Scenario.edited request).2 in
  notes_ok Scenario.edited ∧ history_ok Scenario.edited
  ∧ String.substring 0 9 (uuid4_hex Scenario.env) ≠ ""
  ∧ notes_ok db' ∧ history_ok db' ∧ length (notes db') = 3.
Proof.
  intros request db'.
  assert (Hok : notes_ok Scenario.edited) by (unfold notes_ok; compute_done).
  assert (Hhist : history_ok Scenario.edited) by (unfold history_ok; compute_done).
  assert (Hne : String.substring 0 9 (uuid4_hex Scenario.env) ≠ "") by compute_done.
  repeat (split; [assumption|]).
  destruct (create_keeps_constraints Scenario.env Scenario.edited request Hok Hhist Hne)
    as (Hok' & Hhist' & _).
  split; [exact Hok'|]. split; [exact Hhist'|reflexivity].
Defined.

(** ** Editing a note through the handler *)

Lemma get_object_stored (db : DB) (n : Note.t) :
  notes_ok db → n ∈ notes db → NoteDetailAPIView.get_object db (Note.slug n) = Ok n.
Proof.
  intros Hok Hn. unfold NoteDetailAPIView.get_object.
  rewrite (get_note db n Hok Hn). reflexivity.
Qed.

Lemma get_object_elem_of (db : DB) (slug : string) (n : Note.t) :
  NoteDetailAPIView.get_object db slug = Ok n → n ∈ notes db ∧ Note.slug n = slug.
Proof.
  unfold NoteDetailAPIView.get_object. intros H.
  apply (filter_eqb_elem_of Note.slug). fold (Note_filter_slug db slug).
  destruct (Note_filter_slug db slug) as [|x [|y l]]; try discriminate.
  injection H as ->. left.
Qed.

(** The answer of [PUT /notes/<slug>/] to a valid request on a stored note,
    when the editor resolves. *)
Lemma update_view_resolved (env : Env) (db : DB) (instance : Note.t)
    (request : gmap string JSON) (data : NoteViewSerializer.validated_data) :
  notes_ok db → instance ∈ notes db →
  NoteViewSerializer.is_valid request = Valid data →
  user_exists db (NoteViewSerializer.last_modified_by_user data) →
  ∃ instance' db',
    NoteDetailAPIView.update env db (Note.slug instance) request
    = (Response 200 "Note updated successfully. :)" instance', db')
    ∧ NoteViewSerializer.update env db instance data = Ok (instance', db')
    ∧ Note.slug instance' = Note.slug instance.
Proof.
  intros Hok Hin Hvalid Hex.
  pose proof (update_resolved env db instance data Hok Hin Hex) as Hupd.
  cbv zeta in Hupd. eexists _, _.
  split; [|split; [exact Hupd|reflexivity]].
  unfold NoteDetailAPIView.update.
  rewrite (get_object_stored db instance Hok Hin). simpl.
  rewrite Hvalid, Hupd. reflexivity.
Qed.

(** X5: after [PUT /notes/<slug>/] with a valid body on a stored note, by
    an editor who resolves, [GET /notes/<slug>/] answers the note the PUT
    answered: it has the new content and the editor; and the last row of
    the ledger records that content as its updated content. *)
Theorem update_then_retrieve (env : Env) (db : DB) (instance : Note.t)
    (request : gmap string JSON) (data : NoteViewSerializer.validated_data) :
  notes_ok db → instance ∈ notes db →
  NoteViewSerializer.is_valid request = Valid data →
  user_exists db (NoteViewSerializer.last_modified_by_user data) →
  let put := NoteDetailAPIView.update env db (Note.slug instance) request in
  ∃ instance',
    put.1 = Response 200 "Note updated successfully. :)" instance'
    ∧ NoteDetailAPIView.retrieve put.2 (Note.slug instance)
      = (Response 200 "Note found" instance', put.2)
    ∧ Note.content instance' = NoteViewSerializer.content data
    ∧ Note.last_modified_by_user instance'
      = NoteViewSerializer.last_modified_by_user data
    ∧ NoteHistory.updated_content <$> last (history put.2)
      = Some (Note.content instance').
Proof.
  intros Hok Hin Hvalid Hex put. unfold put.
  destruct (update_view_resolved env db instance request data Hok Hin Hvalid Hex)
    as (instance' & db' & -> & Hupd & Hslug).
  destruct (update_keeps_notes_ok _ _ _ _ _ _ Hok Hin Hupd)
    as (Hok' & Hin' & _ & _ & Hcontent & Hhist).
  exists instance'. simpl. split; [done|]. split.
  { unfold NoteDetailAPIView.retrieve.
    rewrite <- Hslug, (get_object_stored db' instance' Hok' Hin'). reflexivity. }
  split; [exact Hcontent|]. split.
  { rewrite (update_resolved env db instance data Hok Hin Hex) in Hupd.
    by injection Hupd as <- _. }
  rewrite Hhist, last_snoc. simpl. by rewrite Hcontent.
Qed.

Lemma update_then_retrieve_witness :
  let request : gmap string JSON :=
    {[ "slug" := JString "9f8e7d6c5"; "content" := JString "hello world";
       "last_modified_by_user" := JString "5f6a7b8c9d" ]} in
  let put := NoteDetailAPIView.update Scenario.env Scenario.db "9f8e7d6c5" request in
  notes_ok Scenario.db ∧ Scenario.hello ∈ notes Scenario.db
  ∧ user_exists Scenario.db "5f6a7b8c9d"
  ∧ ∃ instance',
      NoteDetailAPIView.retrieve put.2 "9f8e7d6c5"
      = (Response 200 "Note found" instance', put.2)
      ∧ Note.content instance' = "hello world"
      ∧ Note.last_modified_by_user instance' = "5f6a7b8c9d".
Proof.
  intros request put.
  assert (Hok : notes_ok Scenario.db) by (unfold notes_ok; compute_done).
  assert (Hin : Scenario.hello ∈ notes Scenario.db) by compute_done.
  assert (Hex : user_exists Scenario.db "5f6a7b8c9d")
    by (apply exists_user; reflexivity).
  repeat (split; [assumption|]).
  destruct (update_then_retrieve Scenario.env Scenario.db Scenario.hello request
              (NoteViewSerializer.mk "9f8e7d6c5" "hello world" "5f6a7b8c9d")
              Hok Hin eq_refl Hex) as (instance' & _ & Hget & Hc & He & _).
  exists instance'. split; [exact Hget|]. split; [exact Hc|exact He].
Defined.

(** X6: whatever the slug and the body, [PUT /notes/<slug>/] keeps the
    constraints of the tables, adds and removes no note (the column of ids
    stays as it was), leaves the users alone, and only ever appends to the
    ledger, at most one row: no ledger row is changed or deleted. *)
Theorem update_keeps_constraints (env : Env) (db : DB) (slug : string)
    (request : gmap string JSON) :
  notes_ok db → history_ok db →
  let db' := (NoteDetailAPIView.update env db slug request).2 in
  notes_ok db' ∧ history_ok db'
  ∧ users db' = users db
  ∧ Note.pk <$> notes db' = Note.pk <$> notes db
  ∧ ∃ entries, history db' = history db ++ entries ∧ (length entries ≤ 1)%nat.
Proof.
  intros Hok Hhist db'. unfold db', NoteDetailAPIView.update.
  assert (Hsame : notes_ok db ∧ history_ok db ∧ users db = users db
                  ∧ Note.pk <$> notes db = Note.pk <$> notes db
                  ∧ ∃ entries, history db = history db ++ entries ∧ (length entries ≤ 1)%nat).
  { do 4 (split; [done|]). exists []. rewrite app_nil_r. split; [done|simpl; lia]. }
  destruct (NoteDetailAPIView.get_object db slug) as [instance|e] eqn:Hget; simpl;
    [|exact Hsame].
  apply get_object_elem_of in Hget as [Hin _].
  destruct (NoteViewSerializer.is_valid request) as [data|errors]; simpl;
    [|exact Hsame].
  destruct (NoteViewSerializer.update env db instance data) as [[instance' db1]|e]
    eqn:Hupd; simpl; [|exact Hsame].
  pose proof (update_keeps_history_ok _ _ _ _ _ _ Hok Hhist Hin Hupd) as Hhist1.
  destruct (update_keeps_notes_ok _ _ _ _ _ _ Hok Hin Hupd)
    as (Hok1 & _ & Husers & _ & _ & Hrows).
  split; [exact Hok1|]. split; [exact Hhist1|]. split; [exact Husers|]. split.
  - pose proof (update_succeeds_inv _ _ _ _ _ _ Hupd) as Hex.
    rewrite (update_resolved env db instance data Hok Hin Hex) in Hupd.
    injection Hupd as _ <-. simpl. destruct Hok as (Hpks & _ & _).
    by apply (write_back_column Note.pk _ instance).
  - eexists. split; [exact Hrows|]. simpl. lia.
Qed.

Lemma update_keeps_constraints_witness :
  let request : gmap string JSON :=
    {[ "slug" := JString "zzz"; "content" := JString "hello again";
       "last_modified_by_user" := JString "5f6a7b8c9d" ]} in
  let db' := (NoteDetailAPIView.update Scenario.env Scenario.edited "9f8e7d6c5"
                request).2 in
  notes_ok Scenario.edited ∧ history_ok Scenario.edited
  ∧ notes_ok db' ∧ history_ok db' ∧ Note.pk <$> notes db' = [1; 2]
  ∧ length (history db') = 3.
Proof.
  intros request db'.
  assert (Hok : notes_ok Scenario.edited) by (unfold notes_ok; compute_done).
  assert (Hhist : history_ok Scenario.edited) by (unfold history_ok; compute_done).
  repeat (split; [assumption|]).
  destruct (update_keeps_constraints Scenario.env Scenario.edited "9f8e7d6c5" request
              Hok Hhist) as (Hok' & Hhist' & _ & Hpks & _).
  split; [exact Hok'|]. split; [exact Hhist'|]. split; [exact Hpks|reflexivity].
Defined.

(** ** A run of edits through the handler *)

Lemma put_all_run
    (calls : list (Env * gmap string JSON * NoteViewSerializer.validated_data)) :
  ∀ (db : DB) (instance : Note.t),
  notes_ok db → instance ∈ notes db →
  Forall (fun c => NoteViewSerializer.is_valid c.1.2 = Valid c.2
                   ∧ user_exists db (NoteViewSerializer.last_modified_by_user c.2))
    calls →
  let run := put_all db (Note.slug instance) ((fun c => c.1) <$> calls) in
  Forall (fun r => ∃ n, r = Response 200 "Note updated successfully. :)" n) run.1
  ∧ length run.1 = length calls
  ∧ history run.2
    = history db ++ entries_of (Note.pk instance) (Note.content instance)
                      ((fun c => (c.1.1, c.2)) <$> calls)
  ∧ ∃ instance',
      instance' ∈ notes run.2 ∧ notes_ok run.2
      ∧ Note.pk instance' = Note.pk instance
      ∧ Note.slug instance' = Note.slug instance
      ∧ Note.content instance'
        = default (Note.content instance)
            (last ((fun c => NoteViewSerializer.content c.2) <$> calls)).
Proof.
  induction calls as [|[[env request] data] calls IH]; intros db instance Hok Hin Hall.
  - simpl. split; [constructor|]. split; [done|]. rewrite app_nil_r. split; [done|].
    exists instance. done.
  - apply Forall_cons in Hall as [[Hvalid Hex] Hall]. simpl in Hvalid, Hex.
    destruct (update_view_resolved env db instance request data Hok Hin Hvalid Hex)
      as (instance1 & db1 & Hview & Hupd & Hslug).
    destruct (update_keeps_notes_ok _ _ _ _ _ _ Hok Hin Hupd)
      as (Hok1 & Hin1 & Husers & Hpk & Hcontent & Hhist).
    assert (Hall1 : Forall (fun c =>
                      NoteViewSerializer.is_valid c.1.2 = Valid c.2
                      ∧ user_exists db1 (NoteViewSerializer.last_modified_by_user c.2))
                      calls).
    { eapply Forall_impl; [exact Hall|]. intros c [Hv (u & Hu & Hs)].
      split; [exact Hv|]. exists u. rewrite Husers. done. }
    specialize (IH db1 instance1 Hok1 Hin1 Hall1). cbv zeta in IH.
    rewrite Hslug, Hpk, Hcontent in IH.
    cbn [fmap list_fmap put_all fst snd]. rewrite Hview.
    destruct (put_all db1 (Note.slug instance) ((fun c => c.1) <$> calls))
      as [responses db2] eqn:Hrun.
    cbn [fst snd] in IH |- *.
    destruct IH as (Hresp & Hlen & Hhist2 & instance2 & Hin2 & Hok2 & Hpk2 & Hslug2 & Hc2).
    split; [constructor; eauto|]. split; [simpl; by rewrite Hlen|].
    split; [rewrite Hhist2, Hhist, <- app_assoc; done|].
    exists instance2. split; [done|]. split; [done|]. split; [done|]. split; [done|].
    rewrite Hc2, last_cons.
    by destruct (last _).
Qed.

(** X7: a run of [N] valid [PUT /notes/<slug>/] requests on one stored
    note, by editors who resolve, is answered 200 each time; it appends
    exactly [N] rows to the ledger of the note, in the order of the
    requests, the first starting from the content the note had and each
    next one from the content the one before left; and the note that
    [GET /notes/<slug>/] then answers has the content of the last
    request. *)
Theorem puts_build_ledger
    (calls : list (Env * gmap string JSON * NoteViewSerializer.validated_data))
    (db : DB) (instance : Note.t) :
  notes_ok db → instance ∈ notes db →
  Forall (fun c => NoteViewSerializer.is_valid c.1.2 = Valid c.2
                   ∧ user_exists db (NoteViewSerializer.last_modified_by_user c.2))
    calls →
  let run := put_all db (Note.slug instance) ((fun c => c.1) <$> calls) in
  Forall (fun r => ∃ n, r = Response 200 "Note updated successfully. :)" n) run.1
  ∧ ∃ entries,
      Note_history run.2 instance = Note_history db instance ++ entries
      ∧ length entries = length calls
      ∧ NoteHistory.updated_content <$> entries
        = (fun c => NoteViewSerializer.content c.2) <$> calls
      ∧ NoteHistory.original_content <$> head entries
        = (fun _ => Note.content instance) <$> head calls
      ∧ chained entries
      ∧ ∃ instance',
          NoteDetailAPIView.retrieve run.2 (Note.slug instance)
          = (Response 200 "Note found" instance', run.2)
          ∧ Note.content instance'
            = default (Note.content instance)
                (last ((fun c => NoteViewSerializer.content c.2) <$> calls)).
Proof.
  intros Hok Hin Hall run.
  destruct (put_all_run calls db instance Hok Hin Hall)
    as (Hresp & _ & Hhist & instance' & Hin' & Hok' & _ & Hslug & Hcontent).
  fold run in Hresp, Hhist, Hin', Hok'.
  split; [exact Hresp|].
  exists (entries_of (Note.pk instance) (Note.content instance)
            ((fun c => (c.1.1, c.2)) <$> calls)).
  split; [apply (Note_history_app db run.2 instance _ Hhist), entries_of_note|].
  split; [by rewrite entries_of_length, length_fmap|].
  split; [rewrite entries_of_updated, <- list_fmap_compose; done|].
  split; [by destruct calls as [|[[??]?] ?]|].
  split; [apply entries_of_chained|].
  exists instance'. split; [|exact Hcontent].
  unfold NoteDetailAPIView.retrieve.
  rewrite <- Hslug, (get_object_stored run.2 instance' Hok' Hin'). reflexivity.
Qed.

Lemma puts_build_ledger_witness :
  let put (content editor : string) :
      Env * gmap string JSON * NoteViewSerializer.validated_data :=
    (Scenario.env,
     {[ "slug" := JString "9f8e7d6c5"; "content" := JString content;
        "last_modified_by_user" := JString editor ]},
     NoteViewSerializer.mk "9f8e7d6c5" content editor) in
  let calls := [put "hello world" "0a1b2c3d4e"; put "hello world" "5f6a7b8c9d";
                put "bye" "0a1b2c3d4e"] in
  let run := put_all Scenario.db "9f8e7d6c5" ((fun c => c.1) <$> calls) in
  notes_ok Scenario.db ∧ Scenario.hello ∈ notes Scenario.db
  ∧ ∃ entries,
      Note_history run.2 Scenario.hello = entries
      ∧ length entries = 3
      ∧ NoteHistory.updated_content <$> entries = ["hello world"; "hello world"; "bye"]
      ∧ chained entries.
Proof.
  intros put calls run.
  assert (Hok : notes_ok Scenario.db) by (unfold notes_ok; compute_done).
  assert (Hin : Scenario.hello ∈ notes Scenario.db) by compute_done.
  repeat (split; [assumption|]).
  assert (Hall : Forall (fun c =>
                   NoteViewSerializer.is_valid c.1.2 = Valid c.2
                   ∧ user_exists Scenario.db
                       (NoteViewSerializer.last_modified_by_user c.2)) calls).
  { repeat constructor; apply exists_user; reflexivity. }
  destruct (puts_build_ledger calls Scenario.db Scenario.hello Hok Hin Hall)
    as (_ & entries & Hledger & Hlen & Hupdated & _ & Hchained & _).
  exists entries. split; [exact Hledger|]. split; [exact Hlen|].
  split; [exact Hupdated|exact Hchained].
Defined.

(** ** Sharing again *)

(** The grant a successful [create] returns carries the next id of the
    table and the time of the call. *)
Lemma share_create_inv (env : Env) (db db' : DB)
    (data : SharedNoteSerializer.validated_data) (grant : SharedNote.t) :
  SharedNoteSerializer.create env db data = Ok (grant, db') →
  SharedNote.pk grant = SharedNote.next_pk (shared db)
  ∧ SharedNote.shared_at grant = now env.
Proof.
  unfold SharedNoteSerializer.create.
  destruct (get "Note" _) as [n|e]; simpl; [|discriminate].
  destruct (get "NotesUser" _) as [u|e]; simpl; [|discriminate].
  intros [= <- _]. unfold SharedNote.stored.
  destruct (find _ _) as [r|] eqn:E; simpl; [|done].
  apply find_some in E as [Hr Hpk]. apply Nat.eqb_eq in Hpk. simpl in Hpk.
  split; [exact Hpk|].
  apply list_elem_of_In in Hr. unfold SharedNote.save in Hr.
  apply list_elem_of_fmap in Hr as (r0 & -> & _). simpl in *.
  destruct (Nat.eqb (SharedNote.pk r0) (SharedNote.next_pk (shared db))) eqn:E0;
    [done|].
  apply Nat.eqb_neq in E0. contradiction.
Qed.

(** X8: sharing never touches the grants that are there: when the note and
    the sharer resolve, [create] appends one grant to the [SharedNote]
    table, under an id no stored grant has, stamped with the time of the
    call, and leaves the other tables as they were.  Sharing a note again
    therefore adds a second grant beside the first. *)
Theorem share_appends_grant (env : Env) (db : DB)
    (data : SharedNoteSerializer.validated_data) (n : Note.t) (u : NotesUser.t) :
  notes_ok db → users_ok db → shared_ok db →
  n ∈ notes db → Note.slug n = SharedNoteSerializer.note data →
  u ∈ users db → NotesUser.userslug u = SharedNoteSerializer.shared_by data →
  ∃ grant db',
    SharedNoteSerializer.create env db data = Ok (grant, db')
    ∧ shared db' = shared db ++ [grant]
    ∧ (SharedNote.pk grant ∉ SharedNote.pk <$> shared db)
    ∧ shared_ok db'
    ∧ SharedNote.note grant = Note.pk n
    ∧ SharedNote.shared_by grant = NotesUser.userslug u
    ∧ SharedNote.shared_at grant = now env
    ∧ users db' = users db ∧ notes db' = notes db ∧ history db' = history db.
Proof.
  intros Hnotes Husers Hshared Hn Hslug Hu Hpk.
  destruct (share_resolved env db data n u Hnotes Husers Hn Hslug Hu Hpk)
    as (grant & Hcreate & Hnote & Hby & _).
  destruct (share_create_inv _ _ _ _ _ Hcreate) as [Hid Hat].
  assert (Hnew : SharedNote.pk grant ∉ (SharedNote.pk <$> shared db)).
  { intros Hin. apply foldr_max_above in Hin. rewrite Hid in Hin.
    unfold SharedNote.next_pk in Hin. lia. }
  exists grant, (set_shared (shared db ++ [grant]) db).
  split; [exact Hcreate|]. split; [done|]. split; [exact Hnew|]. split.
  { unfold shared_ok. simpl. rewrite fmap_app. apply NoDup_app.
    split; [exact Hshared|]. split; [|apply NoDup_singleton].
    intros k Hk Hk'. apply list_elem_of_singleton in Hk'. subst k. contradiction. }
  done.
Qed.

Lemma share_appends_grant_witness :
  let data := SharedNoteSerializer.mk "9f8e7d6c5" "0a1b2c3d4e" ["0a1b2c3d4e"] in
  notes_ok Cases.shared_once ∧ users_ok Cases.shared_once ∧ shared_ok Cases.shared_once
  ∧ Scenario.alice ∈ users Cases.shared_once
  ∧ length (shared Cases.shared_once) = 1
  ∧ ∃ grant db',
      SharedNoteSerializer.create Scenario.env Cases.shared_once data = Ok (grant, db')
      ∧ shared db' = shared Cases.shared_once ++ [grant]
      ∧ SharedNote.pk grant = 2.
Proof.
  intros data.
  assert (Hnotes : notes_ok Cases.shared_once) by (unfold notes_ok; compute_done).
  assert (Husers : users_ok Cases.shared_once) by (unfold users_ok; compute_done).
  assert (Hshared : shared_ok Cases.shared_once) by (unfold shared_ok; compute_done).
  assert (Hu : Scenario.alice ∈ users Cases.shared_once) by compute_done.
  repeat (split; [assumption|]). split; [reflexivity|].
  assert (Hn : Note.mk 1 "9f8e7d6c5" "0a1b2c3d4e" "0a1b2c3d4e" "hello world"
                 Scenario.morning ∈ notes Cases.shared_once) by compute_done.
  destruct (share_appends_grant Scenario.env Cases.shared_once data _ Scenario.alice
              Hnotes Husers Hshared Hn eq_refl Hu eq_refl)
    as (grant & db' & Hcreate & Happ & _).
  exists grant, db'. split; [exact Hcreate|]. split; [exact Happ|].
  apply share_create_inv in Hcreate as [-> _]. reflexivity.
Defined.

(** X9: the recipients of a grant depend on the list of slugs only as a
    set: two share requests for the same note by the same sharer whose
    lists hold the same slugs, in whatever order and however often, give
    grants with the same recipients. *)
Theorem share_recipients_as_set (env : Env) (db : DB)
    (data data' : SharedNoteSerializer.validated_data) (n : Note.t) (u : NotesUser.t) :
  notes_ok db → users_ok db →
  n ∈ notes db → Note.slug n = SharedNoteSerializer.note data →
  u ∈ users db → NotesUser.userslug u = SharedNoteSerializer.shared_by data →
  SharedNoteSerializer.note data' = SharedNoteSerializer.note data →
  SharedNoteSerializer.shared_by data' = SharedNoteSerializer.shared_by data →
  (∀ s, s ∈ SharedNoteSerializer.shared_with data
        ↔ s ∈ SharedNoteSerializer.shared_with data') →
  ∃ grant grant' db1 db2,
    SharedNoteSerializer.create env db data = Ok (grant, db1)
    ∧ SharedNoteSerializer.create env db data' = Ok (grant', db2)
    ∧ SharedNote.shared_with grant = SharedNote.shared_with grant'.
Proof.
  intros Hnotes Husers Hn Hslug Hu Hpk Hnote' Hby' Hsame.
  destruct (share_resolved env db data n u Hnotes Husers Hn Hslug Hu Hpk)
    as (grant & Hcreate & _ & _ & Hrec).
  rewrite <- Hnote' in Hslug. rewrite <- Hby' in Hpk.
  destruct (share_resolved env db data' n u Hnotes Husers Hn Hslug Hu Hpk)
    as (grant' & Hcreate' & _ & _ & Hrec').
  exists grant, grant'. eexists _, _.
  split; [exact Hcreate|]. split; [exact Hcreate'|].
  apply set_eq. intros s. rewrite Hrec, Hrec', Hsame. done.
Qed.

Lemma share_recipients_as_set_witness :
  let data := SharedNoteSerializer.mk "9f8e7d6c5" "0a1b2c3d4e"
                ["5f6a7b8c9d"; "0a1b2c3d4e"] in
  let data' := SharedNoteSerializer.mk "9f8e7d6c5" "0a1b2c3d4e"
                 ["0a1b2c3d4e"; "5f6a7b8c9d"; "0a1b2c3d4e"] in
  notes_ok Scenario.db ∧ users_ok Scenario.db
  ∧ ∃ grant grant' db1 db2,
      SharedNoteSerializer.create Scenario.env Scenario.db data = Ok (grant, db1)
      ∧ SharedNoteSerializer.create Scenario.env Scenario.db data' = Ok (grant', db2)
      ∧ SharedNote.shared_with grant = SharedNote.shared_with grant'.
Proof.
  intros data data'.
  assert (Hnotes : notes_ok Scenario.db) by (unfold notes_ok; compute_done).
  assert (Husers : users_ok Scenario.db) by (unfold users_ok; compute_done).
  repeat (split; [assumption|]).
  apply (share_recipients_as_set Scenario.env Scenario.db data data'
           Scenario.hello Scenario.alice Hnotes Husers);
    try reflexivity; try compute_done.
  intros s. simpl. rewrite !elem_of_cons. rewrite !elem_of_nil. tauto.
Defined.

(** X10: the fields of a share request are validated before anything is
    looked up: a request without [shared_with], or with a [shared_with]
    that is a string and not a list, is answered 400 with the error under
    [shared_with] and nothing is written, whether or not the note and the
    sharer exist. *)
Theorem share_fields_first (env : Env) (db : DB) (request : gmap string JSON) :
  (match request !! "shared_with" with Some (JList _) => False | _ => True end) →
  ∃ errors,
    SharedNoteAPIView.create env db request
    = (ErrorResponse 400 "Failed to Share Note !" errors, db)
    ∧ (("shared_with", [required]) ∈ errors ∨ ("shared_with", [not_a_list]) ∈ errors).
Proof.
  intros Hbad. unfold SharedNoteAPIView.create, SharedNoteSerializer.is_valid.
  assert (Hfield : ∃ code,
            fields.required_field fields.ListField (request !! "shared_with")
            = Raise (ValidationError [code]) ∧ (code = required ∨ code = not_a_list)).
  { destruct (request !! "shared_with") as [[s|l]|]; [|done|];
      eexists; (split; [reflexivity|]); auto. }
  destruct Hfield as (code & -> & Hcode).
  assert (Hin : ("shared_with", [code])
                ∈ field_error "note"
                    (fields.required_field fields.SlugField (request !! "note"))
                  ++ field_error "shared_by"
                       (fields.required_field fields.SlugField (request !! "shared_by"))
                  ++ field_error "shared_with" (@Raise (list string)
                                                  (ValidationError [code]))).
  { apply elem_of_app. right. apply elem_of_app. right. left. }
  exists (field_error "note"
            (fields.required_field fields.SlugField (request !! "note"))
          ++ field_error "shared_by"
               (fields.required_field fields.SlugField (request !! "shared_by"))
          ++ field_error "shared_with" (@Raise (list string) (ValidationError [code]))).
  split.
  - destruct (fields.required_field fields.SlugField (request !! "note")),
             (fields.required_field fields.SlugField (request !! "shared_by"));
      reflexivity.
  - destruct Hcode as [-> | ->]; [left|right]; exact Hin.
Qed.

Lemma share_fields_first_witness :
  let request : gmap string JSON :=
    {[ "note" := JString "nonesuch1"; "shared_by" := JString "0a1b2c3d4e";
       "shared_with" := JString "5f6a7b8c9d" ]} in
  (match request !! "shared_with" with Some (JList _) => False | _ => True end)
  ∧ SharedNoteAPIView.create Scenario.env Scenario.db request
    = (ErrorResponse 400 "Failed to Share Note !" [("shared_with", [not_a_list])],
       Scenario.db).
Proof.
  intros request.
  assert (Hbad : match request !! "shared_with" with
                 | Some (JList _) => False | _ => True end) by exact I.
  split; [exact Hbad|].
  destruct (share_fields_first Scenario.env Scenario.db request Hbad)
    as (errors & Hresp & _).
  rewrite Hresp. vm_compute in Hresp. injection Hresp as <-. reflexivity.
Defined.

(** ** Signing up *)

(** An address that went through [EmailField] is not empty. *)
Lemma EmailField_not_blank (dj : Django) (data : option JSON) (value : string) :
  fields.required_field (UserRegistrationSerializer.EmailField dj) data = Ok value →
  String.eqb value "" = false.
Proof.
  unfold fields.required_field, UserRegistrationSerializer.EmailField,
    fields.run_validation.
  destruct data as [[s|l]|]; try discriminate.
  destruct (String.eqb s "" || String.eqb (fields.strip s) "") eqn:E; [discriminate|].
  apply orb_false_elim in E as [_ E].
  unfold fields.run_validators. destruct (concat _); [|discriminate].
  intros [= <-]. exact E.
Qed.

(** The user [create_user] hands to [save], once [save] has drawn the
    slug. *)
Lemma signup_view_fresh (dj : Django) (env : Env) (db : DB)
    (request : gmap string JSON) (address password : string)
    (first_name last_name : option string) :
  fields.required_field (UserRegistrationSerializer.EmailField dj)
    (request !! "email") = Ok address →
  fields.required_field (fields.CharField false) (request !! "password")
    = Ok password →
  fields.optional_field (fields.CharField true) (request !! "first_name")
    = Ok first_name →
  fields.optional_field (fields.CharField true) (request !! "last_name")
    = Ok last_name →
  ¬ email_registered db address →
  ¬ email_registered db (normalize_email dj address) →
  (∀ u, u ∈ users db → NotesUser.username u ≠ normalize_username dj address) →
  fresh_user_slug env db →
  let user := NotesUser.mk (String.substring 0 10 (uuid4_hex env))
                (normalize_username dj address) (normalize_email dj address)
                (make_password dj password)
                (default "" first_name) (default "" last_name) in
  UserRegistrationAPIView.create dj env db request
  = (Response 201 "User created successfully. :)" user,
     set_users (users db ++ [user]) db).
Proof.
  intros Hemail Hpassword Hfirst Hlast Hraw Hfree Hname Hfresh user.
  pose proof (EmailField_not_blank _ _ _ Hemail) as Hset.
  unfold UserRegistrationAPIView.create, UserRegistrationSerializer.is_valid.
  rewrite Hemail, Hpassword, Hfirst, Hlast. simpl.
  unfold UserRegistrationSerializer.validate_email.
  destruct (exists_ (NotesUser_filter_email db address)) eqn:E.
  { apply exists_email in E. contradiction. }
  simpl. unfold UserRegistrationSerializer.create, create_user. simpl.
  rewrite Hset. rewrite NotesUser_save_fresh; simpl; try done.
  - intros r Hr Heq. apply Hfresh. exists r. done.
  - intros r Hr Heq. apply Hfree. exists r. done.
Qed.

(** X11: what signing up stores.  For a request whose fields validate, with
    an address nobody holds (as given, or as the manager stores it), a
    login name nobody has and a new slug, [POST /signup/] answers 201 and
    appends one user: the primary key is the first ten characters of the
    UUID, the login name is the address in the normal form of login names
    (NFKC), the stored address is the address in the manager's normal form
    of addresses, and a name that the request leaves out is stored as the
    empty string. *)
Theorem signup_stores_user (dj : Django) (env : Env) (db : DB)
    (request : gmap string JSON) (address password : string)
    (first_name last_name : option string) :
  fields.required_field (UserRegistrationSerializer.EmailField dj)
    (request !! "email") = Ok address →
  fields.required_field (fields.CharField false) (request !! "password")
    = Ok password →
  fields.optional_field (fields.CharField true) (request !! "first_name")
    = Ok first_name →
  fields.optional_field (fields.CharField true) (request !! "last_name")
    = Ok last_name →
  ¬ email_registered db address →
  ¬ email_registered db (normalize_email dj address) →
  (∀ u, u ∈ users db → NotesUser.username u ≠ normalize_username dj address) →
  fresh_user_slug env db →
  ∃ user,
    UserRegistrationAPIView.create dj env db request
    = (Response 201 "User created successfully. :)" user,
       set_users (users db ++ [user]) db)
    ∧ NotesUser.userslug user = String.substring 0 10 (uuid4_hex env)
    ∧ NotesUser.username user = normalize_username dj address
    ∧ NotesUser.email user = normalize_email dj address
    ∧ NotesUser.password user = make_password dj password
    ∧ (request !! "first_name" = None → NotesUser.first_name user = "")
    ∧ (request !! "last_name" = None → NotesUser.last_name user = "")
    ∧ user_exists (set_users (users db ++ [user]) db) (NotesUser.userslug user).
Proof.
  intros Hemail Hpassword Hfirst Hlast Hraw Hfree Hname Hfresh.
  eexists. split; [by apply signup_view_fresh|]. simpl.
  do 4 (split; [done|]). split; [|split].
  - intros Hnone. rewrite Hnone in Hfirst. simpl in Hfirst.
    by injection Hfirst as <-.
  - intros Hnone. rewrite Hnone in Hlast. simpl in Hlast.
    by injection Hlast as <-.
  - eexists. split; [apply elem_of_app; right; left|done].
Qed.

Lemma signup_stores_user_witness :
  let address := Cases.kelvin +:+ "@Example.ORG" in
  let request : gmap string JSON :=
    {[ "email" := JString address; "password" := JString "pw";
       "last_name" := JString "" ]} in
  ¬ email_registered Cases.db address
  ∧ ¬ email_registered Cases.db (normalize_email Cases.django address)
  ∧ (∀ u, u ∈ users Cases.db →
          NotesUser.username u ≠ normalize_username Cases.django address)
  ∧ fresh_user_slug Scenario.env Cases.db
  ∧ ∃ user,
      UserRegistrationAPIView.create Cases.django Scenario.env Cases.db request
      = (Response 201 "User created successfully. :)" user,
         set_users (users Cases.db ++ [user]) Cases.db)
      ∧ NotesUser.userslug user = "c0ffee00c0"
      ∧ NotesUser.username user = "K@Example.ORG"
      ∧ NotesUser.email user = Cases.kelvin +:+ "@example.org"
      ∧ NotesUser.first_name user = "".
Proof.
  intros address request.
  assert (Hraw : ¬ email_registered Cases.db address)
    by (intros H; apply exists_email in H; discriminate).
  assert (Hfree : ¬ email_registered Cases.db (normalize_email Cases.django address))
    by (intros H; apply exists_email in H; discriminate).
  assert (Hname : ∀ u, u ∈ users Cases.db →
                       NotesUser.username u ≠ normalize_username Cases.django address).
  { apply Forall_forall. repeat constructor; discriminate. }
  assert (Hfresh : fresh_user_slug Scenario.env Cases.db)
    by (intros H; apply exists_user in H; discriminate).
  repeat (split; [assumption|]).
  destruct (signup_stores_user Cases.django Scenario.env Cases.db request
              address "pw" None (Some "") eq_refl eq_refl eq_refl eq_refl
              Hraw Hfree Hname Hfresh)
    as (user & Hview & Hslug & Hlogin & Haddr & _ & Hfirst & _).
  exists user. split; [exact Hview|]. split; [exact Hslug|]. split; [exact Hlogin|].
  split; [exact Haddr|]. apply Hfirst. reflexivity.
Defined.

(** X12: [validate_email] compares the address as given with the stored
    ones, while the manager stores its own form of the address.  So when
    the address as given is held by nobody but its stored form is, the
    request passes validation and fails on the unique constraint of the
    table: [POST /signup/] ends in a server error with [IntegrityError],
    not in a 400, and no user is stored. *)
Theorem signup_duplicate_after_normalisation (dj : Django) (env : Env) (db : DB)
    (request : gmap string JSON) (address password : string)
    (first_name last_name : option string) :
  fields.required_field (UserRegistrationSerializer.EmailField dj)
    (request !! "email") = Ok address →
  fields.required_field (fields.CharField false) (request !! "password")
    = Ok password →
  fields.optional_field (fields.CharField true) (request !! "first_name")
    = Ok first_name →
  fields.optional_field (fields.CharField true) (request !! "last_name")
    = Ok last_name →
  ¬ email_registered db address →
  email_registered db (normalize_email dj address) →
  fresh_user_slug env db →
  UserRegistrationAPIView.create dj env db request
  = (ServerError (IntegrityError "email"), db).
Proof.
  intros Hemail Hpassword Hfirst Hlast Hraw (u & Hu & Htaken) Hfresh.
  pose proof (EmailField_not_blank _ _ _ Hemail) as Hset.
  unfold UserRegistrationAPIView.create, UserRegistrationSerializer.is_valid.
  rewrite Hemail, Hpassword, Hfirst, Hlast. simpl.
  unfold UserRegistrationSerializer.validate_email.
  destruct (exists_ (NotesUser_filter_email db address)) eqn:E.
  { apply exists_email in E. contradiction. }
  simpl. unfold UserRegistrationSerializer.create, create_user. simpl.
  rewrite Hset. unfold NotesUser.save. simpl.
  unfold NotesUser.generate_random_slug.
  rewrite (unique_violation_true NotesUser.email _ _ u); [reflexivity| |exact Htaken].
  apply list_elem_of_filter. split; [|exact Hu].
  simpl. intros Heq. apply Hfresh. exists u. done.
Qed.

Lemma signup_duplicate_after_normalisation_witness :
  let request : gmap string JSON :=
    {[ "email" := JString "carol@EXAMPLE.com"; "password" := JString "pw" ]} in
  ¬ email_registered Cases.db "carol@EXAMPLE.com"
  ∧ email_registered Cases.db (normalize_email Cases.django "carol@EXAMPLE.com")
  ∧ fresh_user_slug Scenario.env Cases.db
  ∧ UserRegistrationAPIView.create Cases.django Scenario.env Cases.db request
    = (ServerError (IntegrityError "email"), Cases.db).
Proof.
  intros request.
  assert (Hraw : ¬ email_registered Cases.db "carol@EXAMPLE.com")
    by (intros H; apply exists_email in H; discriminate).
  assert (Htaken : email_registered Cases.db
                     (normalize_email Cases.django "carol@EXAMPLE.com"))
    by (apply exists_email; reflexivity).
  assert (Hfresh : fresh_user_slug Scenario.env Cases.db)
    by (intros H; apply exists_user in H; discriminate).
  repeat (split; [assumption|]).
  exact (signup_duplicate_after_normalisation Cases.django Scenario.env Cases.db request
           "carol@EXAMPLE.com" "pw" None None eq_refl eq_refl eq_refl eq_refl
           Hraw Htaken Hfresh).
Defined.

Lemma replace_user_keeps (col : NotesUser.t -> string) (self : NotesUser.t)
    (rows : list NotesUser.t) :
  NoDup (NotesUser.userslug <$> rows) → NoDup (col <$> rows) →
  (∀ r, r ∈ rows → NotesUser.userslug r ≠ NotesUser.userslug self →
        col r ≠ col self) →
  let replace := fun r =>
    if String.eqb (NotesUser.userslug r) (NotesUser.userslug self) then self else r in
  NotesUser.userslug <$> (replace <$> rows) = NotesUser.userslug <$> rows
  ∧ NoDup (col <$> (replace <$> rows)).
Proof.
  intros Hpks Hcols Hother replace.
  induction rows as [|x rows IH]; [split; [done|constructor]|].
  rewrite !fmap_cons in Hpks, Hcols.
  apply NoDup_cons in Hpks as [Hxpk Hpks]. apply NoDup_cons in Hcols as [Hxcol Hcols].
  destruct IH as [IHpk IHcol]; [done|done|intros r Hr; apply Hother; by right|].
  rewrite !fmap_cons. split.
  - rewrite IHpk. f_equal. unfold replace.
    destruct (String.eqb _ _) eqn:E; [|done]. by apply String.eqb_eq in E.
  - apply NoDup_cons. split; [|exact IHcol].
    intros Hin. apply list_elem_of_fmap in Hin as (y & Hy & Hin).
    apply list_elem_of_fmap in Hin as (r & -> & Hr).
    assert (Hrpk : NotesUser.userslug r ≠ NotesUser.userslug x).
    { intros Heq. apply Hxpk. rewrite <- Heq. apply list_elem_of_fmap. eauto. }
    assert (Hrcol : col r ≠ col x).
    { intros Heq. apply Hxcol. rewrite <- Heq. apply list_elem_of_fmap. eauto. }
    unfold replace in Hy.
    destruct (String.eqb (NotesUser.userslug x) _) eqn:Ex;
      destruct (String.eqb (NotesUser.userslug r) _) eqn:Er.
    + apply String.eqb_eq in Ex, Er. congruence.
    + apply String.eqb_eq in Ex. apply String.eqb_neq in Er.
      apply (Hother r); [by right|done|done].
    + apply String.eqb_neq in Ex. apply String.eqb_eq in Er.
      apply (Hother x); [by left|done|done].
    + congruence.
Qed.

(** What a successful [NotesUser.save] keeps, and what it writes: a new row
    at the end of the table, or, when the primary key is that of a stored
    row, this row in the place of that one. *)
Lemma NotesUser_save_keeps (env : Env) (self self' : NotesUser.t)
    (rows rows' : list NotesUser.t) :
  NotesUser.save env self rows = Ok (self', rows') →
  NoDup (NotesUser.userslug <$> rows) → NoDup (NotesUser.email <$> rows) →
  NoDup (NotesUser.username <$> rows) →
  NoDup (NotesUser.userslug <$> rows') ∧ NoDup (NotesUser.email <$> rows')
  ∧ NoDup (NotesUser.username <$> rows')
  ∧ (∀ k, k ∈ NotesUser.userslug <$> rows → k ∈ NotesUser.userslug <$> rows')
  ∧ (NotesUser.userslug self = "" →
     NotesUser.userslug self' = String.substring 0 10 (uuid4_hex env))
  ∧ ((NotesUser.userslug self' ∉ NotesUser.userslug <$> rows)
       ∧ rows' = rows ++ [self']
     ∨ (NotesUser.userslug self' ∈ NotesUser.userslug <$> rows)
       ∧ rows' = (fun r => if String.eqb (NotesUser.userslug r)
                                 (NotesUser.userslug self')
                           then self' else r) <$> rows).
Proof.
  unfold NotesUser.save.
  set (drawn := if String.eqb (NotesUser.userslug self) "" then _ else self).
  assert (Hdrawn : NotesUser.userslug self = "" →
                   NotesUser.userslug drawn = String.substring 0 10 (uuid4_hex env)).
  { intros Hblank. unfold drawn. rewrite Hblank. reflexivity. }
  destruct (unique_violation NotesUser.email _ _) eqn:E1; [discriminate|].
  destruct (unique_violation NotesUser.username _ _) eqn:E2; [discriminate|].
  assert (Hother1 : ∀ r, r ∈ rows → NotesUser.userslug r ≠ NotesUser.userslug drawn →
                         NotesUser.email r ≠ NotesUser.email drawn).
  { intros r Hr Hpk. apply (unique_violation_false_inv NotesUser.email _ _ E1).
    apply list_elem_of_filter. done. }
  assert (Hother2 : ∀ r, r ∈ rows → NotesUser.userslug r ≠ NotesUser.userslug drawn →
                         NotesUser.username r ≠ NotesUser.username drawn).
  { intros r Hr Hpk. apply (unique_violation_false_inv NotesUser.username _ _ E2).
    apply list_elem_of_filter. done. }
  destruct (existsb _ rows) eqn:E3; intros [= <- <-] Hpks Hemails Hnames.
  - destruct (replace_user_keeps NotesUser.email drawn rows Hpks Hemails Hother1)
      as [Hcol Hnd1].
    destruct (replace_user_keeps NotesUser.username drawn rows Hpks Hnames Hother2)
      as [_ Hnd2].
    cbv zeta in Hcol, Hnd1, Hnd2. rewrite Hcol.
    do 5 (split; [done|]). right. split; [|done].
    apply existsb_exists in E3 as (x & Hx & Heq). apply String.eqb_eq in Heq.
    rewrite <- Heq. apply list_elem_of_fmap. exists x.
    split; [done|by apply list_elem_of_In].
  - assert (Hnew : ∀ r, r ∈ rows → NotesUser.userslug r ≠ NotesUser.userslug drawn).
    { intros r Hr Heq.
      assert (existsb (fun r => String.eqb (NotesUser.userslug r)
                         (NotesUser.userslug drawn)) rows = true); [|congruence].
      apply existsb_exists. exists r. split; [by apply list_elem_of_In|].
      by apply String.eqb_eq. }
    rewrite !fmap_app. simpl.
    split; [|split; [|split; [|split; [|split; [done|]]]]].
    + apply NoDup_app. split; [done|]. split; [|apply NoDup_singleton].
      intros v Hv Hv'. apply list_elem_of_singleton in Hv'. subst v.
      apply list_elem_of_fmap in Hv as (r & Hr & Hin). by apply (Hnew r Hin).
    + apply NoDup_app. split; [done|]. split; [|apply NoDup_singleton].
      intros v Hv Hv'. apply list_elem_of_singleton in Hv'. subst v.
      apply list_elem_of_fmap in Hv as (r & Hr & Hin).
      apply (Hother1 r Hin); [by apply Hnew|done].
    + apply NoDup_app. split; [done|]. split; [|apply NoDup_singleton].
      intros v Hv Hv'. apply list_elem_of_singleton in Hv'. subst v.
      apply list_elem_of_fmap in Hv as (r & Hr & Hin).
      apply (Hother2 r Hin); [by apply Hnew|done].
    + intros k Hk. apply elem_of_app. by left.
    + left. split; [|done]. intros Hin.
      apply list_elem_of_fmap in Hin as (r & Hr & Hin). by apply (Hnew r Hin).
Qed.

(** What a successful [UserRegistrationSerializer.create] keeps, and what
    it writes. *)
Lemma signup_create_keeps (dj : Django) (env : Env) (db db1 : DB)
    (data : UserRegistrationSerializer.validated_data) (user : NotesUser.t) :
  users_ok db → emails_unique db → usernames_unique db →
  UserRegistrationSerializer.create dj env db data = Ok (user, db1) →
  users_ok db1 ∧ emails_unique db1 ∧ usernames_unique db1
  ∧ (∀ k, k ∈ NotesUser.userslug <$> users db → k ∈ NotesUser.userslug <$> users db1)
  ∧ notes db1 = notes db ∧ history db1 = history db ∧ shared db1 = shared db
  ∧ NotesUser.userslug user = String.substring 0 10 (uuid4_hex env)
  ∧ ((NotesUser.userslug user ∉ NotesUser.userslug <$> users db)
       ∧ users db1 = users db ++ [user]
     ∨ (NotesUser.userslug user ∈ NotesUser.userslug <$> users db)
       ∧ users db1 = (fun r => if String.eqb (NotesUser.userslug r)
                                     (NotesUser.userslug user)
                               then user else r) <$> users db).
Proof.
  intros Hpks Hemails Hnames.
  unfold UserRegistrationSerializer.create, create_user.
  destruct (String.eqb _ ""); [discriminate|].
  destruct (NotesUser.save _ _ _) as [[u rows]|e] eqn:Hsave; simpl; [|discriminate].
  intros [= <- <-].
  destruct (NotesUser_save_keeps _ _ _ _ _ Hsave Hpks Hemails Hnames)
    as (Hpks' & Hemails' & Hnames' & Hsub & Hdrawn & Hshape).
  split; [exact Hpks'|]. split; [exact Hemails'|]. split; [exact Hnames'|].
  split; [exact Hsub|]. do 3 (split; [done|]).
  split; [by apply Hdrawn|exact Hshape].
Qed.

(** X13: whatever the request, [POST /signup/] keeps the constraints of the
    [NotesUser] table: slugs, addresses and login names stay unique (the
    unique constraints catch what [validate_email] lets through), and it
    leaves the other tables as they were.  It never removes a row.  It
    leaves the table as it was, or appends one user under the slug drawn;
    or, when the slug drawn is already the primary key of a stored user,
    it writes the new user over that user's row and leaves every other row
    as it was. *)
Theorem signup_keeps_constraints (dj : Django) (env : Env) (db : DB)
    (request : gmap string JSON) :
  users_ok db → emails_unique db → usernames_unique db →
  let db' := (UserRegistrationAPIView.create dj env db request).2 in
  let drawn := String.substring 0 10 (uuid4_hex env) in
  users_ok db' ∧ emails_unique db' ∧ usernames_unique db'
  ∧ notes db' = notes db ∧ history db' = history db ∧ shared db' = shared db
  ∧ (db' = db
     ∨ (∃ user, NotesUser.userslug user = drawn
                ∧ (drawn ∉ NotesUser.userslug <$> users db)
                ∧ users db' = users db ++ [user])
     ∨ (∃ user, NotesUser.userslug user = drawn
                ∧ (drawn ∈ NotesUser.userslug <$> users db)
                ∧ users db' = (fun r => if String.eqb (NotesUser.userslug r) drawn
                                        then user else r) <$> users db)).
Proof.
  intros Hpks Hemails Hnames db' drawn. unfold db', UserRegistrationAPIView.create.
  assert (Hsame : users_ok db ∧ emails_unique db ∧ usernames_unique db
                  ∧ notes db = notes db ∧ history db = history db
                  ∧ shared db = shared db
                  ∧ (db = db
                     ∨ (∃ user, NotesUser.userslug user = drawn
                                ∧ (drawn ∉ NotesUser.userslug <$> users db)
                                ∧ users db = users db ++ [user])
                     ∨ (∃ user, NotesUser.userslug user = drawn
                                ∧ (drawn ∈ NotesUser.userslug <$> users db)
                                ∧ users db
                                  = (fun r => if String.eqb (NotesUser.userslug r) drawn
                                              then user else r) <$> users db)))
    by (do 6 (split; [done|]); by left).
  destruct (UserRegistrationSerializer.is_valid dj db request) as [data|errors];
    simpl; [|exact Hsame].
  destruct (UserRegistrationSerializer.create dj env db data) as [[user db1]|e]
    eqn:Hcreate; simpl; [|exact Hsame].
  destruct (signup_create_keeps _ _ _ _ _ _ Hpks Hemails Hnames Hcreate)
    as (H1 & H2 & H3 & _ & H4 & H5 & H6 & Hslug & Hshape).
  do 6 (split; [done|]). right. fold drawn in Hslug. rewrite Hslug in Hshape.
  destruct Hshape as [[Hnew Happ]|[Hold Hover]]; [left|right]; by exists user.
Qed.

Lemma signup_keeps_constraints_witness :
  let request : gmap string JSON :=
    {[ "email" := JString "Dan@Example.ORG"; "password" := JString "pw" ]} in
  let again := mkEnv Cases.night "0a1b2c3d4e0a1b2c3d4e0a1b2c3d4e0a" in
  let dan := NotesUser.mk "0a1b2c3d4e" "Dan@Example.ORG" "Dan@example.org"
               "pbkdf2$pw" "" "" in
  let db' := (UserRegistrationAPIView.create Cases.django Scenario.env Cases.db
                request).2 in
  users_ok Cases.db ∧ emails_unique Cases.db ∧ usernames_unique Cases.db
  ∧ users_ok db' ∧ emails_unique db' ∧ usernames_unique db'
  ∧ length (users db') = 4
  ∧ users (UserRegistrationAPIView.create Cases.django again Cases.db request).2
    = [dan; Scenario.bob; Cases.carol].
Proof.
  intros request again dan db'.
  assert (Hpks : users_ok Cases.db) by (unfold users_ok; compute_done).
  assert (Hemails : emails_unique Cases.db) by (unfold emails_unique; compute_done).
  assert (Hnames : usernames_unique Cases.db) by (unfold usernames_unique; compute_done).
  repeat (split; [assumption|]).
  destruct (signup_keeps_constraints Cases.django Scenario.env Cases.db request
              Hpks Hemails Hnames) as (Hpks' & Hemails' & Hnames' & _).
  split; [exact Hpks'|]. split; [exact Hemails'|]. split; [exact Hnames'|].
  split; vm_compute; reflexivity.
Defined.

(** ** The history response *)

Lemma filter_pk_unique (rows : list Note.t) (n : Note.t) :
  NoDup (Note.pk <$> rows) → n ∈ rows →
  List.filter (fun x => Nat.eqb (Note.pk x) (Note.pk n)) rows = [n].
Proof.
  induction rows as [|x rows IH]; simpl; intros Hnd Hn.
  - inversion Hn.
  - apply NoDup_cons in Hnd as [Hnotin Hnd].
    apply elem_of_cons in Hn as [->|Hn].
    + rewrite Nat.eqb_refl. f_equal.
      destruct (List.filter _ rows) as [|y l] eqn:E; [done|].
      assert (Hy : y ∈ List.filter (fun x0 => Nat.eqb (Note.pk x0) (Note.pk x)) rows)
        by (rewrite E; left).
      apply list_elem_of_In, filter_In in Hy as [Hy Heq].
      apply Nat.eqb_eq in Heq. exfalso. apply Hnotin. rewrite <- Heq.
      apply list_elem_of_fmap. exists y. split; [done|by apply list_elem_of_In].
    + destruct (Nat.eqb (Note.pk x) (Note.pk n)) eqn:E; [|auto].
      apply Nat.eqb_eq in E. exfalso. apply Hnotin. rewrite E.
      apply list_elem_of_fmap. eauto.
Qed.

Lemma serialize_many_represents (db : DB) (objs : list NoteHistory.t) :
  notes_ok db → users_ok db →
  Forall (fun h => NoteHistory.note h ∈ Note.pk <$> notes db) objs →
  Forall (fun h => NoteHistory.updated_by_user h ∈ NotesUser.userslug <$> users db)
    objs →
  ∃ data,
    NoteVersionHistoryAPIView.serialize_many db objs = Ok data
    ∧ Forall2 (represents db) objs data.
Proof.
  intros (Hpks & _ & _) Husers. induction objs as [|h objs IH]; intros Hnotes Heditors.
  - exists []. split; [done|constructor].
  - apply Forall_cons in Hnotes as [Hn Hnotes].
    apply Forall_cons in Heditors as [He Heditors].
    destruct (IH Hnotes Heditors) as (data & Hdata & Hrep).
    apply list_elem_of_fmap in Hn as (n & Hnpk & Hn).
    apply list_elem_of_fmap in He as (u & Hupk & Hu).
    eexists. split.
    + simpl. unfold NoteHistorySerializer.to_representation.
      rewrite Hnpk, (filter_pk_unique (notes db) n Hpks Hn). simpl.
      rewrite Hupk, (get_user db u Husers Hu). simpl. rewrite Hdata. simpl.
      reflexivity.
    + constructor; [|exact Hrep].
      unfold represents. simpl. split; [by exists n|]. split; [by exists u|done].
Qed.

(** X14: on a database whose foreign keys hold, the history handler answers
    200, writes nothing, and its list has one entry for each row of the
    ledger, in the order of insertion; the entry shows the row's two
    contents, the slug of the row's note, the address of the row's editor
    and the formatted time of the row.  With an empty ledger the list is
    empty. *)
Theorem history_lists_ledger (db : DB) (slug : string) :
  notes_ok db → users_ok db → history_ok db → editors_ok db →
  ∃ data,
    NoteVersionHistoryAPIView.get db slug = (Response 200 "" data, db)
    ∧ Forall2 (represents db) (history db) data
    ∧ length data = length (history db)
    ∧ (history db = [] → data = []).
Proof.
  intros Hnotes Husers Hhist Heditors.
  destruct (serialize_many_represents db (history db) Hnotes Husers Hhist Heditors)
    as (data & Hdata & Hrep).
  exists data. split; [|split; [exact Hrep|split]].
  - unfold NoteVersionHistoryAPIView.get, NoteVersionHistoryAPIView.queryset.
    rewrite Hdata. reflexivity.
  - symmetry. by eapply Forall2_length.
  - intros Hempty. rewrite Hempty in Hrep. by inversion Hrep.
Qed.

Lemma history_lists_ledger_witness :
  notes_ok Scenario.edited ∧ users_ok Scenario.edited
  ∧ history_ok Scenario.edited ∧ editors_ok Scenario.edited
  ∧ ∃ data,
      NoteVersionHistoryAPIView.get Scenario.edited "anything"
      = (Response 200 "" data, Scenario.edited)
      ∧ length data = 2.
Proof.
  assert (Hnotes : notes_ok Scenario.edited) by (unfold notes_ok; compute_done).
  assert (Husers : users_ok Scenario.edited) by (unfold users_ok; compute_done).
  assert (Hhist : history_ok Scenario.edited) by (unfold history_ok; compute_done).
  assert (Heditors : editors_ok Scenario.edited) by (unfold editors_ok; compute_done).
  repeat (split; [assumption|]).
  destruct (history_lists_ledger Scenario.edited "anything" Hnotes Husers Hhist Heditors)
    as (data & Hget & _ & Hlen & _).
  exists data. split; [exact Hget|exact Hlen].
Defined.

(** ** The formatted time *)

Lemma string_length_app (a b : string) :
  String.length (a +:+ b) = (String.length a + String.length b)%nat.
Proof. induction a as [|c a IH]; simpl; [done|]. by rewrite IH. Qed.

Lemma two_digits_length (n : nat) :
  (n < 100)%nat → String.length (two_digits n) = 2.
Proof.
  intros Hn.
  assert (Hall : Forall (fun n => String.length (two_digits n) = 2) (seq 0 100))
    by compute_done.
  rewrite Forall_forall in Hall. apply Hall, elem_of_seq. lia.
Qed.

Lemma year_length (y : nat) :
  (1000 ≤ y)%nat → (y < 10 * 1000)%nat →
  String.length (NilZero.string_of_uint (Nat.to_uint y)) = 4.
Proof.
  intros Hlo Hhi.
  assert (Hall : Forall (fun y => String.length (NilZero.string_of_uint (Nat.to_uint y))
                                  = 4) (seq 1000 (9 * 1000)))
    by compute_done.
  rewrite Forall_forall in Hall. apply Hall, elem_of_seq. lia.
Qed.

(** X15: for a time of the calendar with a year of four digits, the
    formatted time of a ledger row is always 22 characters long (two
    digits for day, month, hour and minute, with a leading zero where
    needed), it ends in [AM] before noon and in [PM] from noon on, and the
    method of the model and the method of the serializer give the same
    string. *)
Theorem formatted_timestamp_shape (h : NoteHistory.t) :
  calendar (NoteHistory.timestamp h) →
  String.length (NoteHistory.formatted_timestamp h) = 22
  ∧ String.substring 20 2 (NoteHistory.formatted_timestamp h)
    = (if decide (hour (NoteHistory.timestamp h) < 12)%nat then "AM" else "PM")
  ∧ NoteHistorySerializer.get_modified_time h = NoteHistory.formatted_timestamp h.
Proof.
  intros (Hy1 & Hy2 & Hm1 & Hm2 & Hd1 & Hd2 & Hh & Hmin).
  unfold NoteHistory.formatted_timestamp, NoteHistorySerializer.get_modified_time,
    strftime.
  set (t := NoteHistory.timestamp h) in *.
  set (h12 := if decide (hour t `mod` 12 = 0) then 12 else hour t `mod` 12).
  assert (Hh12 : (h12 < 100)%nat).
  { unfold h12. destruct (decide _); [lia|].
    pose proof (Nat.mod_upper_bound (hour t) 12). lia. }
  pose proof (two_digits_length (day t) ltac:(lia)) as Ld.
  pose proof (two_digits_length (month t) ltac:(lia)) as Lm.
  pose proof (two_digits_length h12 Hh12) as Lh.
  pose proof (two_digits_length (minute t) ltac:(lia)) as Lmin.
  pose proof (year_length (year t) Hy1 Hy2) as Ly.
  split; [|split; [|done]].
  - rewrite !string_length_app, Ld, Lm, Lh, Lmin, Ly.
    by destruct (decide (hour t < 12)%nat).
  - destruct (two_digits (day t)) as [|d1 [|d2 [|? ?]]]; try discriminate.
    destruct (two_digits (month t)) as [|m1 [|m2 [|? ?]]]; try discriminate.
    destruct (two_digits h12) as [|h1 [|h2 [|? ?]]]; try discriminate.
    destruct (two_digits (minute t)) as [|n1 [|n2 [|? ?]]]; try discriminate.
    destruct (NilZero.string_of_uint (Nat.to_uint (year t)))
      as [|y1 [|y2 [|y3 [|y4 [|? ?]]]]]; try discriminate.
    by destruct (decide (hour t < 12)%nat).
Qed.

Lemma formatted_timestamp_shape_witness :
  let h := NoteHistory.mk 1 "a" "b" "0a1b2c3d4e" Cases.night in
  calendar (NoteHistory.timestamp h)
  ∧ NoteHistory.formatted_timestamp h = "31-12-2024 at 12:07 AM"
  ∧ String.length (NoteHistory.formatted_timestamp h) = 22.
Proof.
  intros h.
  assert (Hcal : calendar (NoteHistory.timestamp h)) by (unfold calendar; compute_done).
  split; [exact Hcal|]. split; [reflexivity|].
  exact (proj1 (formatted_timestamp_shape h Hcal)).
Defined.

(** ** Login *)

(** The errors a required, non-blank character field can raise. *)
Lemma CharField_errors (data : option JSON) (e : Exception) :
  fields.required_field (fields.CharField false) data = Raise e →
  ∃ code, e = ValidationError [code]
          ∧ code ∈ [required; blank; invalid; null_characters_not_allowed].
Proof.
  unfold fields.required_field, fields.CharField, fields.run_validation,
    fields.run_validators.
  destruct data as [[s|l]|].
  - destruct (String.eqb s "" || String.eqb (fields.strip s) "").
    + intros [= <-]. exists blank. split; [done|]. right. left.
    + simpl. unfold fields.ProhibitNullCharactersValidator.
      destruct (existsb _ _); simpl; [|discriminate].
      intros [= <-]. exists null_characters_not_allowed. split; [done|].
      do 3 right. left.
  - intros [= <-]. exists invalid. split; [done|]. do 2 right. left.
  - intros [= <-]. exists required. split; [done|]. left.
Qed.

(** X16: [validate] has a branch that answers [Both username and password
    are required], but no request reaches it through [is_valid]: both
    fields are required and may not be blank, so a request that lacks one
    of them is refused by the field itself.  Whatever the request and the
    login backend, that message is in none of the errors. *)
Theorem login_never_asks_for_both {S : Type} (auth : AuthBackend S) (st : S)
    (request : gmap string JSON) :
  match (UserLoginSerializer.is_valid auth st request).1 with
  | Invalid errors =>
      ∀ name errs, (name, errs) ∈ errors →
      detail "Both username and password are required" ∉ errs
  | Valid _ => True
  end.
Proof.
  unfold UserLoginSerializer.is_valid.
  destruct (fields.required_field (fields.CharField false) (request !! "username"))
    as [u|e1] eqn:Hu;
    destruct (fields.required_field (fields.CharField false) (request !! "password"))
      as [p|e2] eqn:Hp.
  - apply CharField_not_blank in Hu, Hp.
    unfold UserLoginSerializer.validate. simpl.
    destruct u as [|c u]; [done|]. destruct p as [|c' p]; [done|].
    destruct (authenticate auth st _ _) as [user|]; simpl.
    + by destruct (token_get_or_create auth st user).
    + intros name errs Hin. apply list_elem_of_singleton in Hin. injection Hin as _ ->.
      intros H. apply list_elem_of_singleton in H. discriminate.
  - apply CharField_errors in Hp as (code & -> & Hcode). simpl.
    intros name errs Hin. apply list_elem_of_singleton in Hin. injection Hin as _ ->.
    intros H. apply list_elem_of_singleton in H. subst code.
    repeat (apply elem_of_cons in Hcode as [Hcode|Hcode]; [discriminate|]).
    inversion Hcode.
  - apply CharField_errors in Hu as (code & -> & Hcode). simpl.
    intros name errs Hin. apply list_elem_of_singleton in Hin. injection Hin as _ ->.
    intros H. apply list_elem_of_singleton in H. subst code.
    repeat (apply elem_of_cons in Hcode as [Hcode|Hcode]; [discriminate|]).
    inversion Hcode.
  - apply CharField_errors in Hu as (code1 & -> & Hcode1).
    apply CharField_errors in Hp as (code2 & -> & Hcode2). simpl.
    intros name errs Hin.
    apply elem_of_cons in Hin as [Hin|Hin]; [|apply list_elem_of_singleton in Hin];
      injection Hin as _ ->; intros H; apply list_elem_of_singleton in H.
    + subst code1.
      repeat (apply elem_of_cons in Hcode1 as [Hcode1|Hcode1]; [discriminate|]).
      inversion Hcode1.
    + subst code2.
      repeat (apply elem_of_cons in Hcode2 as [Hcode2|Hcode2]; [discriminate|]).
      inversion Hcode2.
Qed.

(** X17: the two outcomes of a login request whose fields validate.  When
    the backend knows no user for the credentials, the request is refused
    with [Unable to login with provided credentials] under
    [non_field_errors] and no token is asked for: the state of the backend
    is as it was.  When it knows the user, the validated data carry the
    user's slug, the token the backend gives for the user, and as name the
    first name, a space, and the last name. *)
Theorem login_outcomes {S : Type} (auth : AuthBackend S) (st : S)
    (request : gmap string JSON) (username password : string) :
  fields.required_field (fields.CharField false) (request !! "username")
    = Ok username →
  fields.required_field (fields.CharField false) (request !! "password")
    = Ok password →
  (authenticate auth st username password = None →
   UserLoginSerializer.is_valid auth st request
   = (Invalid [("non_field_errors",
                [detail "Unable to login with provided credentials"])], st))
  ∧ (∀ u, authenticate auth st username password = Some u →
       UserLoginSerializer.is_valid auth st request
       = (Valid (UserLoginSerializer.mk (NotesUser.userslug u)
                   (NotesUser.first_name u +:+ " " +:+ NotesUser.last_name u)
                   (token_get_or_create auth st u).1 u),
          (token_get_or_create auth st u).2)).
Proof.
  intros Hu Hp. unfold UserLoginSerializer.is_valid. rewrite Hu, Hp.
  apply CharField_not_blank in Hu, Hp.
  unfold UserLoginSerializer.validate. simpl.
  destruct username as [|c username]; [done|].
  destruct password as [|c' password]; [done|].
  split.
  - intros ->. reflexivity.
  - intros u ->. by destruct (token_get_or_create auth st u).
Qed.

Lemma login_outcomes_witness :
  let good : gmap string JSON :=
    {[ "username" := JString "a@x.com"; "password" := JString "pw" ]} in
  let bad : gmap string JSON :=
    {[ "username" := JString "a@x.com"; "password" := JString "guess" ]} in
  let st : gmap string string * list string := (∅, ["9944b09199c62bcf"]) in
  UserLoginSerializer.is_valid (Cases.auth Scenario.db) st bad
  = (Invalid [("non_field_errors",
               [detail "Unable to login with provided credentials"])], st)
  ∧ UserLoginSerializer.is_valid (Cases.auth Scenario.db) st good
    = (Valid (UserLoginSerializer.mk "0a1b2c3d4e" "Alice " "9944b09199c62bcf"
                Scenario.alice),
       ({[ "0a1b2c3d4e" := "9944b09199c62bcf" ]}, [])).
Proof.
  intros good bad st. split.
  - destruct (login_outcomes (Cases.auth Scenario.db) st bad "a@x.com" "guess"
                eq_refl eq_refl) as [Hbad _].
    apply Hbad. reflexivity.
  - destruct (login_outcomes (Cases.auth Scenario.db) st good "a@x.com" "pw"
                eq_refl eq_refl) as [_ Hgood].
    rewrite (Hgood Scenario.alice eq_refl). reflexivity.
Defined.

(** ** Every state the handlers reach *)

Lemma get_elem_of {A} (model : string) (selected : list A) (r : A) :
  get model selected = Ok r → r ∈ selected.
Proof.
  destruct selected as [|x [|y l]]; simpl; try discriminate.
  intros [= ->]. left.
Qed.

(** What a successful [SharedNoteSerializer.create] keeps. *)
Lemma share_create_keeps (env : Env) (db db1 : DB)
    (data : SharedNoteSerializer.validated_data) (grant : SharedNote.t) :
  notes_ok db → users_ok db → shared_ok db →
  SharedNoteSerializer.create env db data = Ok (grant, db1) →
  shared_ok db1 ∧ users db1 = users db ∧ notes db1 = notes db
  ∧ history db1 = history db ∧ shared db1 = shared db ++ [grant].
Proof.
  intros Hnotes Husers Hshared Hcreate.
  assert (Hgets : ∃ n u, (n ∈ notes db ∧ Note.slug n = SharedNoteSerializer.note data)
                         ∧ (u ∈ users db
                            ∧ NotesUser.userslug u = SharedNoteSerializer.shared_by data)).
  { unfold SharedNoteSerializer.create in Hcreate.
    destruct (get "Note" _) as [n|e] eqn:Hn; simpl in Hcreate; [|discriminate].
    destruct (get "NotesUser" _) as [u|e] eqn:Hu; simpl in Hcreate; [|discriminate].
    exists n, u. split.
    - apply (filter_eqb_elem_of Note.slug). by apply get_elem_of in Hn.
    - apply (filter_eqb_elem_of NotesUser.userslug). by apply get_elem_of in Hu. }
  destruct Hgets as (n & u & [Hn Hslug] & [Hu Hpk]).
  destruct (share_resolved env db data n u Hnotes Husers Hn Hslug Hu Hpk)
    as (grant' & Hcreate' & _).
  destruct (share_create_inv _ _ _ _ _ Hcreate') as [Hid _].
  rewrite Hcreate' in Hcreate. injection Hcreate as -> <-.
  split; [|done]. unfold shared_ok. simpl. rewrite fmap_app. apply NoDup_app.
  split; [exact Hshared|]. split; [|apply NoDup_singleton].
  intros k Hk Hk'. apply list_elem_of_singleton in Hk'. subst k.
  apply foldr_max_above in Hk. rewrite Hid in Hk. unfold SharedNote.next_pk in Hk. lia.
Qed.

(** The constraints read the tables only. *)
Lemma serve_keeps (dj : Django) (env : Env) (db : DB) (call : Call) :
  String.substring 0 9 (uuid4_hex env) ≠ "" →
  constraints db → constraints (serve dj env db call).
Proof.
  intros Hne Hall.
  pose proof Hall as (Husers & Hemails & Hnames & Hnotes & Hhist & Heds & Hshared).
  destruct call as [request|request|request|slug|slug request|slug]; simpl.
  - unfold UserRegistrationAPIView.create.
    destruct (UserRegistrationSerializer.is_valid dj db request) as [data|errors];
      simpl; [|exact Hall].
    destruct (UserRegistrationSerializer.create dj env db data) as [[user db1]|e]
      eqn:Hcreate; simpl; [|exact Hall].
    destruct (signup_create_keeps _ _ _ _ _ _ Husers Hemails Hnames Hcreate)
      as (H1 & H2 & H3 & Hsub & Hn & Hh & Hs & _).
    unfold constraints, notes_ok, history_ok, editors_ok, shared_ok.
    rewrite Hn, Hh, Hs. do 5 (split; [done|]). split; [|done].
    eapply Forall_impl; [exact Heds|]. intros h Hh'. by apply Hsub.
  - unfold NoteCreateAPIView.create.
    destruct (NoteSerializer.is_valid db request) as [data|errors]; simpl;
      [|exact Hall].
    destruct (NoteSerializer.create env db data) as [[note db1]|e] eqn:Hcreate; simpl;
      [|exact Hall].
    destruct (NoteSerializer_create_keeps _ _ _ _ _ Hnotes Hhist Hne Hcreate)
      as (Hnotes1 & Hhist1 & Hu & Hh & Hs & _).
    unfold constraints, users_ok, emails_unique, usernames_unique, editors_ok,
      shared_ok.
    rewrite Hu, Hh, Hs. done.
  - unfold SharedNoteAPIView.create.
    destruct (SharedNoteSerializer.is_valid request) as [data|errors]; simpl;
      [|exact Hall].
    destruct (SharedNoteSerializer.create env db data) as [[grant db1]|e] eqn:Hcreate;
      simpl; [|exact Hall].
    destruct (share_create_keeps _ _ _ _ _ Hnotes Husers Hshared Hcreate)
      as (Hshared1 & Hu & Hn & Hh & _).
    unfold constraints, users_ok, emails_unique, usernames_unique, notes_ok,
      history_ok, editors_ok.
    rewrite Hu, Hn, Hh. done.
  - unfold NoteDetailAPIView.retrieve.
    destruct (NoteDetailAPIView.get_object db slug); exact Hall.
  - unfold NoteDetailAPIView.update.
    destruct (NoteDetailAPIView.get_object db slug) as [instance|e] eqn:Hget; simpl;
      [|exact Hall].
    apply get_object_elem_of in Hget as [Hin _].
    destruct (NoteViewSerializer.is_valid request) as [data|errors]; simpl;
      [|exact Hall].
    destruct (NoteViewSerializer.update env db instance data) as [[instance' db1]|e]
      eqn:Hupd; simpl; [|exact Hall].
    pose proof (update_keeps_history_ok _ _ _ _ _ _ Hnotes Hhist Hin Hupd) as Hhist1.
    pose proof (update_succeeds_inv _ _ _ _ _ _ Hupd) as (u & Hu & Hpk).
    pose proof (update_keeps_notes_ok _ _ _ _ _ _ Hnotes Hin Hupd)
      as (Hnotes1 & _ & Husers1 & _ & _ & Hledger).
    assert (Hs : shared db1 = shared db).
    { rewrite (update_resolved env db instance data Hnotes Hin
                 (ex_intro _ u (conj Hu Hpk))) in Hupd.
      by injection Hupd as _ <-. }
    unfold constraints, users_ok, emails_unique, usernames_unique, editors_ok,
      shared_ok.
    rewrite Husers1, Hs, Hledger. do 5 (split; [done|]). split; [|done].
    apply Forall_app. split; [exact Heds|]. constructor; [|constructor]. simpl.
    rewrite <- Hpk. apply list_elem_of_fmap. by exists u.
  - unfold NoteVersionHistoryAPIView.get.
    destruct (NoteVersionHistoryAPIView.serialize_many db _); exact Hall.
Qed.

(** X18: every database the handlers reach meets the constraints of its
    tables.  Starting from empty tables, or from any database that meets
    them, after any run of signup, create, share, retrieve, update and
    history requests (accepted or refused, with slugs drawn that are not
    the empty string): user slugs, addresses, login names, note ids, note
    slugs and grant ids are unique, no note slug is empty, and every
    ledger row refers to a stored note and a stored editor. *)
Theorem reachable_constraints (dj : Django) (db : DB) (calls : list (Env * Call)) :
  Forall (fun call => String.substring 0 9 (uuid4_hex call.1) ≠ "") calls →
  (constraints db → constraints (serve_all dj db calls))
  ∧ constraints (serve_all dj (mkDB [] [] [] []) calls).
Proof.
  intros Hcalls.
  assert (Hrun : ∀ db0, constraints db0 → constraints (serve_all dj db0 calls)).
  { unfold serve_all. induction Hcalls as [|[env call] calls Hne _ IH]; intros db0 H0;
      simpl; [exact H0|].
    apply IH. by apply serve_keeps. }
  split; [apply Hrun|].
  apply Hrun. unfold constraints, users_ok, emails_unique, usernames_unique,
    notes_ok, history_ok, editors_ok, shared_ok. simpl.
  repeat split; constructor.
Qed.

Lemma reachable_constraints_witness :
  let calls : list (Env * Call) :=
    [ (Scenario.env,
       PostSignup {[ "email" := JString "dan@example.org"; "password" := JString "pw" ]});
      (Scenario.env,
       PostNote {[ "user_slug" := JString "c0ffee00c0"; "content" := JString "first" ]});
      (Scenario.env,
       PutNote "c0ffee00c"
         {[ "slug" := JString "c0ffee00c";
            "last_modified_by_user" := JString "c0ffee00c0";
            "content" := JString "second" ]});
      (Scenario.env, PostNote {[ "user_slug" := JString "c0ffee00c0" ]});
      (Scenario.env,
       PostShare {[ "note" := JString "c0ffee00c"; "shared_by" := JString "c0ffee00c0";
                    "shared_with" := JList ["c0ffee00c0"] ]}) ] in
  let db := serve_all Cases.django (mkDB [] [] [] []) calls in
  constraints db
  ∧ length (users db) = 1 ∧ length (notes db) = 1 ∧ length (history db) = 1
  ∧ length (shared db) = 1.
Proof.
  intros calls db.
  assert (Hcalls : Forall (fun call => String.substring 0 9 (uuid4_hex call.1) ≠ "")
                     calls)
    by (repeat constructor; discriminate).
  split; [exact (proj2 (reachable_constraints Cases.django (mkDB [] [] [] []) calls
                          Hcalls))|].
  repeat split; vm_compute; reflexivity.
Defined.
